(** * pySwitchbot: the command framing and retry logic of [switchbot/__init__.py]

    A shallow embedding of the [Switchbot] class and of its notification
    delegate, with the properties of its command encoder, password digest,
    status refresher, notification listener and command sender.

    Conventions of the embedding:
    - Python [str] is [string]; [bytes] is [list byte]; Python [int] is [Z].
    - Time stamps and durations ([time.time()], [time.sleep], the constants
      [3600.0], [3.0], [.2]) are exact rationals ([Q]), in seconds.
    - Exceptions are an error result ([outcome]); the stateful methods live
      in a small state-and-exception monad over the device object, the
      oracle positions of the environment and the trace of observable steps.
    - [bluepy] and the clock are the environment: an oracle says, for the
      k-th call into [bluepy], whether it raises [BTLEException], what truth
      value it returns, and which notification arrives while it waits. *)

From Stdlib Require Import ZArith QArith List String Ascii Bool Lia Lqa.
From Stdlib.Strings Require Import Byte.
From Stdlib Require Import FunInd Recdef.
Import ListNotations.

Local Open Scope string_scope.
Local Open Scope Z_scope.

(** ** Module constants (lines 9-29) *)

Definition DEFAULT_RETRY_COUNT : Z := 3.
Definition DEFAULT_RETRY_TIMEOUT : Q := 2 # 10.

Definition SERVICE_UUID : string := "cba20d00-224d-11e6-9fb8-0002a5d5c51b".
Definition HANDLE : string := "cba20002-224d-11e6-9fb8-0002a5d5c51b".
Definition INFO_HANDLE : string := "cba20003-224d-11e6-9fb8-0002a5d5c51b".

Definition PRESS_KEY : string := "570100".
Definition ON_KEY : string := "570101".
Definition OFF_KEY : string := "570102".

Definition KEY_PREFIX : string := "5701".
Definition KEY_PASSWORD_PREFIX : string := "5711".
Definition INFO_PREFIX : string := "5712".

Definition ON_KEY_SUFFIX : string := "01".
Definition OFF_KEY_SUFFIX : string := "02".
Definition PRESS_KEY_SUFFIX : string := "00".

Definition BATTERY_CHECK_TIMEOUT_SECONDS : Q := 3600 # 1.
Definition BLE_NOTIFICATION_WAIT_TIME_SECONDS : Q := 3 # 1.

(** ** Exceptions and results *)

Inductive exn : Type :=
| BTLEException        (* bluepy.btle.BTLEException *)
| IndexError           (* bytes index out of range *)
| BinasciiError        (* binascii.Error *)
| UnicodeEncodeError   (* str.encode('ascii') on a non-ASCII character *)
| AttributeError       (* attribute access on None *)
| TypeError.           (* str + None *)

Inductive outcome (A : Type) : Type :=
| Ret (a : A)
| Raise (e : exn).
Arguments Ret {A} a.
Arguments Raise {A} e.

(** ** Library functions the class calls *)

Module PyLib.

(** [binascii.crc32]: the standard reflected CRC-32 (polynomial
    [0xEDB88320], initial value and final xor [0xFFFFFFFF]), bit by bit. *)
Definition crc32_shift (c : Z) : Z :=
  if Z.testbit c 0
  then Z.lxor (Z.shiftr c 1) 0xEDB88320
  else Z.shiftr c 1.

Definition crc32_update (c : Z) (b : byte) : Z :=
  Nat.iter 8 crc32_shift (Z.lxor c (Z.of_N (Byte.to_N b))).

Definition crc32 (data : list byte) : Z :=
  Z.lxor (fold_left crc32_update data 0xFFFFFFFF) 0xFFFFFFFF.

(** [str.encode('ascii')]: one byte per character, an error on a
    character above 127. *)
Definition is_ascii (c : ascii) : bool := (N_of_ascii c <? 128)%N.

Fixpoint encode_ascii (s : string) : outcome (list byte) :=
  match s with
  | EmptyString => Ret []
  | String c r =>
      if is_ascii c
      then match encode_ascii r with
           | Ret bs => Ret (byte_of_ascii c :: bs)
           | Raise e => Raise e
           end
      else Raise UnicodeEncodeError
  end.

(** ['%x' % n]: lowercase hexadecimal, no padding, a minus sign for a
    negative number. *)
Definition hexdigit (d : Z) : ascii :=
  match d with
  | 0 => "0" | 1 => "1" | 2 => "2" | 3 => "3" | 4 => "4" | 5 => "5"
  | 6 => "6" | 7 => "7" | 8 => "8" | 9 => "9" | 10 => "a" | 11 => "b"
  | 12 => "c" | 13 => "d" | 14 => "e" | _ => "f"
  end%char.

Fixpoint hex_digits (fuel : nat) (n : Z) (acc : string) : string :=
  match fuel with
  | O => acc
  | S f =>
      if n =? 0 then acc
      else hex_digits f (n / 16) (String (hexdigit (n mod 16)) acc)
  end.

Definition format_x (n : Z) : string :=
  if n =? 0 then "0"
  else if n <? 0 then "-" ++ hex_digits (S (Z.to_nat (Z.log2 (- n)))) (- n) ""
  else hex_digits (S (Z.to_nat (Z.log2 n))) n "".

(** The value of a hexadecimal digit, as [binascii.a2b_hex] and [int(s, 16)]
    read it. *)
Definition hexval (c : ascii) : option Z :=
  let n := Z.of_N (N_of_ascii c) in
  if (48 <=? n) && (n <=? 57) then Some (n - 48)
  else if (97 <=? n) && (n <=? 102) then Some (n - 87)
  else if (65 <=? n) && (n <=? 70) then Some (n - 55)
  else None.

Fixpoint int_of_hex_from (s : string) (acc : Z) : option Z :=
  match s with
  | EmptyString => Some acc
  | String c r =>
      match hexval c with
      | Some d => int_of_hex_from r (16 * acc + d)
      | None => None
      end
  end.

Definition int_of_hex (s : string) : option Z := int_of_hex_from s 0.

Definition byte_of_Z (z : Z) : byte :=
  match Byte.of_N (Z.to_N z) with
  | Some b => b
  | None => x00
  end.

(** [binascii.a2b_hex]: two hexadecimal digits per byte; an odd length
    or a character that is no digit raises [binascii.Error]. *)
Fixpoint a2b_hex (s : string) : outcome (list byte) :=
  match s with
  | EmptyString => Ret []
  | String _ EmptyString => Raise BinasciiError
  | String c1 (String c2 r) =>
      match hexval c1, hexval c2, a2b_hex r with
      | Some h, Some l, Ret bs => Ret (byte_of_Z (16 * h + l) :: bs)
      | _, _, _ => Raise BinasciiError
      end
  end.

Definition is_lower_hex (c : ascii) : bool :=
  let n := Z.of_N (N_of_ascii c) in
  ((48 <=? n) && (n <=? 57)) || ((97 <=? n) && (n <=? 102)).

Fixpoint string_forallb (p : ascii -> bool) (s : string) : bool :=
  match s with
  | EmptyString => true
  | String c r => p c && string_forallb p r
  end.

End PyLib.
Import PyLib.

(** ** The objects *)

(** The delegate installed on a [bluepy] peripheral: the default one, which
    ignores notifications, or the class's own, whose [_driver] is the
    [Switchbot] that owns the peripheral. *)
Inductive Delegate : Type :=
| DefaultDelegate
| SwitchBotSettingsNotificationDelegate.

Record Peripheral : Type := {
  deviceAddr : string;
  delegate : Delegate
}.

Record Switchbot : Type := {
  _mac : string;
  _device : option Peripheral;
  _retry_count : Z;
  _password_encoded : option string;
  _lastBattRefresh : Q;
  _battery_percent : option Z
}.

Definition set_device (d : option Peripheral) (s : Switchbot) : Switchbot :=
  {| _mac := _mac s; _device := d; _retry_count := _retry_count s;
     _password_encoded := _password_encoded s;
     _lastBattRefresh := _lastBattRefresh s;
     _battery_percent := _battery_percent s |}.

Definition set_lastBattRefresh (t : Q) (s : Switchbot) : Switchbot :=
  {| _mac := _mac s; _device := _device s; _retry_count := _retry_count s;
     _password_encoded := _password_encoded s;
     _lastBattRefresh := t;
     _battery_percent := _battery_percent s |}.

Definition set_battery_percent (b : option Z) (s : Switchbot) : Switchbot :=
  {| _mac := _mac s; _device := _device s; _retry_count := _retry_count s;
     _password_encoded := _password_encoded s;
     _lastBattRefresh := _lastBattRefresh s;
     _battery_percent := b |}.

(** The instance dictionary of a [Switchbot], attribute by attribute. *)
Inductive pyval : Type :=
| PyNone
| PyInt (z : Z)
| PyFloat (q : Q)
| PyStr (s : string)
| PyPeripheral (p : Peripheral).

Definition of_option {A : Type} (f : A -> pyval) (o : option A) : pyval :=
  match o with
  | Some a => f a
  | None => PyNone
  end.

Definition vars (s : Switchbot) : list (string * pyval) :=
  [ ("_mac", PyStr (_mac s));
    ("_device", of_option PyPeripheral (_device s));
    ("_retry_count", PyInt (_retry_count s));
    ("_password_encoded", of_option PyStr (_password_encoded s));
    ("_lastBattRefresh", PyFloat (_lastBattRefresh s));
    ("_battery_percent", of_option PyInt (_battery_percent s)) ].

(** ** Pure methods *)

(** [Switchbot._passwordcrc] (lines 83-87). *)
Definition _passwordcrc (password : option string) : outcome string :=
  match password with
  | None => Ret ""
  | Some pw =>
      if (pw =? "")%string then Ret ""
      else match encode_ascii pw with
           | Ret bs => Ret (format_x (Z.land (crc32 bs) 0xffffffff))
           | Raise e => Raise e
           end
  end.

(** [Switchbot.__init__] (lines 37-44). *)
Definition __init__ (mac : string) (retry_count : Z) (password : option string)
  : outcome Switchbot :=
  match _passwordcrc password with
  | Ret digest =>
      Ret {| _mac := mac; _device := None; _retry_count := retry_count;
             _password_encoded := Some digest;
             _lastBattRefresh := 0;
             _battery_percent := None |}
  | Raise e => Raise e
  end.

(** [Switchbot._commandkey] (lines 89-100).  The parameter [key] is
    overwritten by the first statement, as in the source. *)
Definition _commandkey (self : Switchbot) (key : string) : string :=
  let key := "" in
  let key_suffix := PRESS_KEY_SUFFIX in
  let key_suffix :=
    if (key =? ON_KEY)%string then ON_KEY_SUFFIX
    else if (key =? OFF_KEY)%string then OFF_KEY_SUFFIX
    else key_suffix in
  match _password_encoded self with
  | Some digest => (KEY_PASSWORD_PREFIX ++ digest ++ key_suffix)%string
  | None => (KEY_PREFIX ++ key_suffix)%string
  end.

(** ** The environment, the trace and the monad *)

Inductive bluepy_call : Type :=
| Peripheral_new (mac : string)        (* bluepy.btle.Peripheral(mac, ADDR_TYPE_RANDOM) *)
| Peripheral_disconnect                (* self._device.disconnect() *)
| setDelegate                          (* self._device.setDelegate(...) *)
| getServiceByUUID (uuid : string)
| getCharacteristics (uuid : string)
| Characteristic_write (target : string) (val : list byte) (withResponse : bool)
| waitForNotifications (timeout : Q).

Inductive event : Type :=
| Sending (command : string)           (* line 136, once per run of _sendcommand *)
| Enter_connect                        (* entry into _connect *)
| Enter_disconnect                     (* entry into _disconnect *)
| Bluepy (c : bluepy_call) (r : outcome bool)
| Sleep (seconds : Q)                  (* time.sleep *)
| GotBattery (batt : Z) (firmware_version : Q).   (* line 178 *)

Record environment : Type := {
  fails : nat -> bool;          (* the k-th bluepy call raises BTLEException *)
  acks : nat -> bool;           (* the truth value the k-th call returns *)
  notification : nat -> option (Z * list byte);
                                (* what arrives while the k-th call waits *)
  clock : nat -> Q              (* the k-th reading of time.time() *)
}.

Record world : Type := {
  self : Switchbot;
  calls : nat;                  (* bluepy calls made so far *)
  reads : nat;                  (* clock readings made so far *)
  trace : list event
}.

Definition M (A : Type) : Type := world -> outcome A * world.

Definition ret {A : Type} (a : A) : M A := fun w => (Ret a, w).

Definition raise {A : Type} (e : exn) : M A := fun w => (Raise e, w).

Definition bind {A B : Type} (m : M A) (k : A -> M B) : M B :=
  fun w =>
    match m w with
    | (Ret a, w') => k a w'
    | (Raise e, w') => (Raise e, w')
    end.

Notation "x <- c1 ;; c2" := (bind c1 (fun x => c2))
  (at level 61, c1 at next level, right associativity).
Notation "c1 ;; c2" := (bind c1 (fun _ => c2))
  (at level 61, right associativity).

Definition lift {A : Type} (r : outcome A) : M A := fun w => (r, w).

(** [try: m except BTLEException: h] *)
Definition try_except {A : Type} (m : M A) (h : M A) : M A :=
  fun w =>
    match m w with
    | (Raise BTLEException, w') => h w'
    | r => r
    end.

(** [try: m finally: f] *)
Definition try_finally {A : Type} (m : M A) (f : M unit) : M A :=
  fun w =>
    let (r, w1) := m w in
    match f w1 with
    | (Ret _, w2) => (r, w2)
    | (Raise e, w2) => (Raise e, w2)
    end.

Definition get_self : M Switchbot := fun w => (Ret (self w), w).

Definition modify_self (f : Switchbot -> Switchbot) : M unit :=
  fun w => (Ret tt, {| self := f (self w); calls := calls w;
                       reads := reads w; trace := trace w |}).

Definition emit (e : event) : M unit :=
  fun w => (Ret tt, {| self := self w; calls := calls w;
                       reads := reads w; trace := (trace w ++ [e])%list |}).

Definition sleep (seconds : Q) : M unit := emit (Sleep seconds).

Definition index (data : list byte) (i : nat) : outcome Z :=
  match nth_error data i with
  | Some b => Ret (Z.of_N (Byte.to_N b))
  | None => Raise IndexError
  end.

(** [SwitchBotSettingsNotificationDelegate.handleNotification] (lines
    173-179); [self._driver] is the device of the world. *)
Definition handleNotification (cHandle : Z) (data : list byte) : M unit :=
  batt <- lift (index data 1) ;;
  raw <- lift (index data 2) ;;
  let firmware_version := (inject_Z raw / inject_Z 10)%Q in
  emit (GotBattery batt firmware_version) ;;
  modify_self (set_battery_percent (Some batt)).

Section WithEnvironment.

Variable env : environment.

Definition time_time : M Q :=
  fun w => (Ret (clock env (reads w)),
            {| self := self w; calls := calls w;
               reads := S (reads w); trace := trace w |}).

(** One call into [bluepy]: it takes the next position of the oracle,
    raises when the oracle says so and runs [body] otherwise; the call
    and its result are appended to the trace when it is over. *)
Definition call (c : bluepy_call) (body : nat -> M bool) : M bool :=
  fun w =>
    let k := calls w in
    let w0 := {| self := self w; calls := S k;
                 reads := reads w; trace := trace w |} in
    let (r, w1) := if fails env k then (Raise BTLEException, w0)
                   else body k w0 in
    (r, {| self := self w1; calls := calls w1; reads := reads w1;
           trace := (trace w1 ++ [Bluepy c r])%list |}).

Definition io (c : bluepy_call) : M bool :=
  call c (fun k => ret (acks env k)).

(** [Peripheral.waitForNotifications]: a notification that arrives is
    handed to the delegate from inside the call, which then returns
    [True]; with none it returns [False]. *)
Definition wait_for_notifications (p : Peripheral) (timeout : Q) : M bool :=
  call (waitForNotifications timeout)
    (fun k =>
       match notification env k with
       | None => ret false
       | Some (cHandle, data) =>
           match delegate p with
           | SwitchBotSettingsNotificationDelegate =>
               handleNotification cHandle data
           | DefaultDelegate => ret tt
           end ;;
           ret true
       end).

(** [Switchbot._connect] (lines 46-57). *)
Definition _connect : M unit :=
  emit Enter_connect ;;
  s <- get_self ;;
  match _device s with
  | Some _ => ret tt
  | None =>
      try_except
        (io (Peripheral_new (_mac s)) ;;
         modify_self (set_device
           (Some {| deviceAddr := _mac s; delegate := DefaultDelegate |})))
        (modify_self (set_device None) ;;
         raise BTLEException)
  end.

(** [Switchbot._disconnect] (lines 59-68). *)
Definition _disconnect : M unit :=
  emit Enter_disconnect ;;
  s <- get_self ;;
  match _device s with
  | None => ret tt
  | Some _ =>
      try_finally
        (try_except (io Peripheral_disconnect ;; ret tt) (ret tt))
        (modify_self (set_device None))
  end.

(** [Switchbot._writekey] (lines 70-81).  [getCharacteristics(HANDLE)] is
    taken to return a characteristic to index with [[0]]; the argument of
    [hand.write] is evaluated before the call is made. *)
Definition _writekey (key : string) : M bool :=
  s <- get_self ;;
  match _device s with
  | None => raise AttributeError
  | Some _ =>
      io (getServiceByUUID SERVICE_UUID) ;;
      io (getCharacteristics HANDLE) ;;
      val <- lift (a2b_hex key) ;;
      write_result <- io (Characteristic_write HANDLE val true) ;;
      ret write_result
  end.

(** [Switchbot._getBatteryPercent_FWVersion] (lines 102-115).  The
    delegate is on the peripheral once [setDelegate] has returned; building
    the [Characteristic] object of line 107 calls nothing. *)
Definition _getBatteryPercent_FWVersion : M unit :=
  now <- time_time ;;
  s <- get_self ;;
  if Qle_bool now (_lastBattRefresh s + BATTERY_CHECK_TIMEOUT_SECONDS)
  then ret tt
  else
    match _device s with
    | None => raise AttributeError
    | Some p =>
        io setDelegate ;;
        let p' := {| deviceAddr := deviceAddr p;
                     delegate := SwitchBotSettingsNotificationDelegate |} in
        modify_self (set_device (Some p')) ;;
        val <- lift (a2b_hex "0100") ;;
        io (Characteristic_write "0014" val false) ;;
        match _password_encoded s with
        | None => raise TypeError
        | Some digest =>
            _writekey (INFO_PREFIX ++ digest)%string ;;
            notified <- wait_for_notifications p'
                          BLE_NOTIFICATION_WAIT_TIME_SECONDS ;;
            (if notified
             then t <- time_time ;; modify_self (set_lastBattRefresh t)
             else ret tt) ;;
            sleep 1
        end
    end.

(** The [try] statement of [_sendcommand] (lines 134-144), with the log
    line before it: the value it leaves in [send_success]. *)
Definition attempt (key : string) : M bool :=
  s <- get_self ;;
  let command := _commandkey s key in
  emit (Sending command) ;;
  try_finally
    (try_except
       (_connect ;;
        _getBatteryPercent_FWVersion ;;
        _writekey command)
       (ret false))
    _disconnect.

(** [Switchbot._sendcommand] (lines 133-152): the [try] statement, the
    two returns, the sleep and the recursive call, on the world [w]. *)
Function _sendcommand (key : string) (retry : Z) (w : world)
  {measure Z.to_nat retry} : outcome bool * world :=
  match attempt key w with
  | (Raise e, w1) => (Raise e, w1)
  | (Ret true, w1) => (Ret true, w1)
  | (Ret false, w1) =>
      if retry <? 1 then (Ret false, w1)
      else match sleep DEFAULT_RETRY_TIMEOUT w1 with
           | (_, w2) => _sendcommand key (retry - 1) w2
           end
  end.
Proof.
  intros key retry w p o w1 b Eo Ep Hretry u w2 Esleep.
  apply Z.ltb_ge in Hretry. lia.
Defined.

(** [turn_on], [turn_off], [press] (lines 154-164). *)
Definition turn_on : M bool :=
  s <- get_self ;; _sendcommand ON_KEY (_retry_count s).

Definition turn_off : M bool :=
  s <- get_self ;; _sendcommand OFF_KEY (_retry_count s).

Definition press : M bool :=
  s <- get_self ;; _sendcommand PRESS_KEY (_retry_count s).

End WithEnvironment.

(** ** Observations on worlds and traces *)

Definition is_Sending (e : event) : bool :=
  match e with
  | Sending _ => true
  | _ => false
  end.

Definition is_Enter_disconnect (e : event) : bool :=
  match e with
  | Enter_disconnect => true
  | _ => false
  end.

(** The sleep between two attempts (line 151). *)
Definition is_backoff (e : event) : bool :=
  match e with
  | Sleep d => Qeq_bool d DEFAULT_RETRY_TIMEOUT
  | _ => false
  end.

(** Events of the body of an attempt: neither the start of an attempt, nor
    the entry into [_disconnect], nor the sleep between attempts. *)
Definition quiet (e : event) : bool :=
  negb (is_Sending e || is_Enter_disconnect e || is_backoff e).

Definition tally (p : event -> bool) (t : list event) : nat :=
  List.length (filter p t).

(** Attempts made, entries into [_disconnect] and sleeps between attempts
    along a trace. *)
Definition attempts (t : list event) : nat := tally is_Sending t.
Definition disconnects (t : list event) : nat := tally is_Enter_disconnect t.
Definition backoffs (t : list event) : nat := tally is_backoff t.

(** A transport on which every call raises [BTLEException]. *)
Definition always_failing (env : environment) : Prop :=
  forall k, fails env k = true.

(** A clock that never runs backwards. *)
Definition monotone_clock (env : environment) : Prop :=
  forall i j, (i <= j)%nat -> (clock env i <= clock env j)%Q.

(** The trace of an attempt whose connection fails. *)
Definition failed_connect (s : Switchbot) (key : string) : list event :=
  [ Sending (_commandkey s key);
    Enter_connect;
    Bluepy (Peripheral_new (_mac s)) (Raise BTLEException);
    Enter_disconnect ].


(** The world after one more reading of the clock and nothing else. *)
Definition after_reading (w : world) : world :=
  {| self := self w; calls := calls w; reads := S (reads w); trace := trace w |}.

(** The refresher touches the transport: it leaves something on the trace. *)
Definition proceeds (env : environment) (w : world) : Prop :=
  trace (snd (_getBatteryPercent_FWVersion env w)) <> trace w.

(** The three-second wait of line 111 returned [b]. *)
Definition wait_returned (b : bool) : event :=
  Bluepy (waitForNotifications BLE_NOTIFICATION_WAIT_TIME_SECONDS) (Ret b).

(** The world after the listener has stored a battery level and logged
    what it decoded. *)
Definition with_battery (batt : Z) (fw : Q) (w : world) : world :=
  {| self := set_battery_percent (Some batt) (self w);
     calls := calls w; reads := reads w;
     trace := (trace w ++ [GotBattery batt fw])%list |}.

(** A computation whose every run relates the world before to the world
    after. *)
Definition respects (R : world -> world -> Prop) {A : Type} (m : M A) : Prop :=
  forall w, R w (snd (m w)).

(** The world moved on by quiet events only. *)
Definition quietly (w w' : world) : Prop :=
  exists t, trace w' = (trace w ++ t)%list /\ forallb quiet t = true.

(** A value of 32 bits. *)
Definition word32 (z : Z) : Prop := 0 <= z < 2 ^ 32.

(** A wait for a notification returned [True]; it returned [False]. *)
Definition notified (e : event) : bool :=
  match e with
  | Bluepy (waitForNotifications _) (Ret true) => true
  | _ => false
  end.

Definition timed_out (e : event) : bool :=
  match e with
  | Bluepy (waitForNotifications _) (Ret false) => true
  | _ => false
  end.

(** The test of line 104. *)
Definition throttled (env : environment) (w : world) : bool :=
  Qle_bool (clock env (reads w))
           (_lastBattRefresh (self w) + BATTERY_CHECK_TIMEOUT_SECONDS).

(** [_lastBattRefresh] did not move back. *)
Definition last_mono (w w' : world) : Prop :=
  (_lastBattRefresh (self w) <= _lastBattRefresh (self w'))%Q.

(** ** Concrete devices and environments *)

Definition idle (mac : string) (retry_count : Z) (digest : string) : Switchbot :=
  {| _mac := mac; _device := None; _retry_count := retry_count;
     _password_encoded := Some digest;
     _lastBattRefresh := 0; _battery_percent := None |}.

Definition start (s : Switchbot) : world :=
  {| self := s; calls := 0; reads := 0; trace := [] |}.

Definition connected (s : Switchbot) : Switchbot :=
  set_device (Some {| deviceAddr := _mac s; delegate := DefaultDelegate |}) s.

(** Every call fails; the clock stands at one hour. *)
Definition dead_air : environment :=
  {| fails := fun _ => true; acks := fun _ => false;
     notification := fun _ => None; clock := fun _ => 3600 # 1 |}.

(** Every call succeeds and is acknowledged, every wait is answered by the
    status notification [00 4b 1e]; the clock starts after one hour and
    advances one second per reading. *)
Definition clear_air : environment :=
  {| fails := fun _ => false; acks := fun _ => true;
     notification := fun _ => Some (19, [x00; x4b; x1e]);
     clock := fun k => inject_Z (4000 + Z.of_nat k) |}.

(** Nothing fails and nothing is acknowledged or notified. *)
Definition mute_air : environment :=
  {| fails := fun _ => false; acks := fun _ => false;
     notification := fun _ => None; clock := fun _ => 0%Q |}.

(** As [clear_air], but no notification ever arrives. *)
Definition silent_air : environment :=
  {| fails := fun _ => false; acks := fun _ => true;
     notification := fun _ => None;
     clock := fun k => inject_Z (4000 + Z.of_nat k) |}.

(** As [clear_air], with a status notification of two bytes only. *)
Definition short_air : environment :=
  {| fails := fun _ => false; acks := fun _ => true;
     notification := fun _ => Some (19, [x00; x4b]);
     clock := fun k => inject_Z (4000 + Z.of_nat k) |}.

(** A call that opens a connection. *)
Definition is_connect (e : event) : bool :=
  match e with
  | Bluepy (Peripheral_new _) _ => true
  | _ => false
  end.

(** ** Further observations *)

(** The attributes no method assigns after construction. *)
Definition same_identity (w w' : world) : Prop :=
  _mac (self w') = _mac (self w) /\
  _retry_count (self w') = _retry_count (self w) /\
  _password_encoded (self w') = _password_encoded (self w).

(** The calls into [bluepy] the class makes on behalf of the device [s]:
    the connection to its own address, the two lookups, the write of
    [0100] to handle [0014], the writes of the status query and of the
    Press frame to [HANDLE], the three-second wait. *)
Definition allowed_call (s : Switchbot) (c : bluepy_call) : Prop :=
  match c with
  | Peripheral_new mac => mac = _mac s
  | Peripheral_disconnect => True
  | setDelegate => True
  | getServiceByUUID uuid => uuid = SERVICE_UUID
  | getCharacteristics uuid => uuid = HANDLE
  | Characteristic_write target val withResponse =>
      (target = "0014" /\ val = [x01; x00] /\ withResponse = false) \/
      (target = HANDLE /\ withResponse = true /\
       exists digest, _password_encoded s = Some digest /\
                      a2b_hex (INFO_PREFIX ++ digest) = Ret val) \/
      (target = HANDLE /\ withResponse = true /\
       a2b_hex (_commandkey s PRESS_KEY) = Ret val)
  | waitForNotifications timeout =>
      timeout = BLE_NOTIFICATION_WAIT_TIME_SECONDS
  end.

Definition allowed (s : Switchbot) (e : event) : Prop :=
  match e with
  | Bluepy c _ => allowed_call s c
  | _ => True
  end.

(** The battery level after the log lines of the listener along a trace,
    from the level [b] before it. *)
Fixpoint last_battery (t : list event) (b : option Z) : option Z :=
  match t with
  | [] => b
  | GotBattery v _ :: t' => last_battery t' (Some v)
  | _ :: t' => last_battery t' b
  end.

Definition is_GotBattery (e : event) : bool :=
  match e with
  | GotBattery _ _ => true
  | _ => false
  end.

Definition is_write (e : event) : bool :=
  match e with
  | Bluepy (Characteristic_write _ _ _) _ => true
  | _ => false
  end.

(** A call only the status refresher makes. *)
Definition is_status_call (e : event) : bool :=
  match e with
  | Bluepy setDelegate _ => true
  | Bluepy (waitForNotifications _) _ => true
  | _ => false
  end.

(** The write of the frame [val] to the command characteristic, with
    response, was acknowledged. *)
Definition acknowledged (val : list byte) : event :=
  Bluepy (Characteristic_write HANDLE val true) (Ret true).

(** A transport on which no call fails, every write is acknowledged and
    every notification has the three bytes the listener reads. *)
Definition answering (env : environment) : Prop :=
  (forall k, fails env k = false) /\
  (forall k, acks env k = true) /\
  (forall k cHandle data,
      notification env k = Some (cHandle, data) ->
      (3 <= List.length data)%nat).

(** From the reading the world is at, the clock stays within the throttle
    window of the last refresh. *)
Definition within_window (env : environment) (w : world) : Prop :=
  forall k, (reads w <= k)%nat ->
    Qle_bool (clock env k)
             (_lastBattRefresh (self w) + BATTERY_CHECK_TIMEOUT_SECONDS) = true.

(** The world with one more event on its trace. *)
Definition logged (e : event) (w : world) : world :=
  {| self := self w; calls := calls w; reads := reads w;
     trace := (trace w ++ [e])%list |}.

(** Every call answers, the clock stands still at zero. *)
Definition still_air : environment :=
  {| fails := fun _ => false; acks := fun _ => true;
     notification := fun _ => Some (19, [x00; x4b; x1e]);
     clock := fun _ => 0%Q |}.

(** A connection was opened; a connection was closed. *)
Definition is_opened (e : event) : bool :=
  match e with
  | Bluepy (Peripheral_new _) (Ret _) => true
  | _ => false
  end.

Definition is_closed (e : event) : bool :=
  match e with
  | Bluepy Peripheral_disconnect _ => true
  | _ => false
  end.

(** A send as a sequence of attempts: the last one, whatever its outcome,
    or a failed one followed by the sleep and the rest of the send. *)
Inductive run (env : environment) (key : string)
  : world -> outcome bool -> world -> list event -> Prop :=
| run_last w r w1 t :
    attempt env key w = (r, w1) ->
    trace w1 = (trace w ++ t)%list ->
    run env key w r w1 t
| run_retry w w1 t1 r w' t2 :
    attempt env key w = (Ret false, w1) ->
    trace w1 = (trace w ++ t1)%list ->
    run env key (logged (Sleep DEFAULT_RETRY_TIMEOUT) w1) r w' t2 ->
    run env key w r w' (t1 ++ Sleep DEFAULT_RETRY_TIMEOUT :: t2)%list.

(** ** The model on concrete runs *)

Example crc32_check : crc32 (match encode_ascii "123456789" with Ret b => b | _ => [] end) = 0xCBF43926.
Proof. vm_compute. reflexivity. Qed.

Example crc32_empty : crc32 [] = 0.
Proof. reflexivity. Qed.

Example format_x_ex : format_x 0xCBF43926 = "cbf43926" /\ format_x 255 = "ff" /\ format_x 4096 = "1000".
Proof. vm_compute. auto. Qed.

Example a2b_hex_ex : a2b_hex "570100" = Ret [x57; x01; x00] /\ a2b_hex "57110" = Raise BinasciiError.
Proof. vm_compute. auto. Qed.

(** [press] on a device without password, on a transport that answers
    everything: [True], after one attempt, one connection and one entry into
    [_disconnect]; the battery level of the notification is cached. *)
Example press_end_to_end :
  let (r, w) := press clear_air (start (idle "c0:ff:ee" 3 "")) in
  r = Ret true /\ attempts (trace w) = 1%nat /\
  tally is_connect (trace w) = 1%nat /\ disconnects (trace w) = 1%nat /\
  _device (self w) = None /\ _battery_percent (self w) = Some 75.
Proof. vm_compute. repeat split; reflexivity. Qed.

(** A write that is never acknowledged is retried like a failure. *)
Example turn_on_never_acknowledged :
  let (r, w) := turn_on mute_air (start (idle "c0:ff:ee" 3 "")) in
  r = Ret false /\ attempts (trace w) = 4%nat /\
  disconnects (trace w) = 4%nat /\ backoffs (trace w) = 3%nat /\
  _device (self w) = None.
Proof. vm_compute. repeat split; reflexivity. Qed.

(** A status notification of two bytes makes the listener raise
    [IndexError] inside the wait; the send disconnects and lets it through. *)
Example turn_on_short_notification :
  let (r, w) := turn_on short_air (start (idle "c0:ff:ee" 3 "")) in
  r = Raise IndexError /\ attempts (trace w) = 1%nat /\
  disconnects (trace w) = 1%nat /\ _device (self w) = None.
Proof. vm_compute. repeat split; reflexivity. Qed.

(** The digest of ["c"] has seven digits: the frames built from it have an
    odd length and [binascii.a2b_hex] refuses them. *)
Example press_odd_digest :
  _passwordcrc (Some "c") = Ret "6b9df6f" /\
  let (r, w) := press clear_air (start (idle "c0:ff:ee" 3 "6b9df6f")) in
  r = Raise BinasciiError /\ disconnects (trace w) = 1%nat /\
  _device (self w) = None.
Proof. vm_compute. repeat split; reflexivity. Qed.

(** ** The password digest *)

Module DigestFacts.

Lemma lxor_word32 a b : word32 a -> word32 b -> word32 (Z.lxor a b).
Proof.
  unfold word32. intros Ha Hb. split.
  - apply Z.lxor_nonneg. lia.
  - destruct (Z.eq_dec (Z.lxor a b) 0) as [E | E]; [rewrite E; lia |].
    assert (0 <= Z.lxor a b) by (apply Z.lxor_nonneg; lia).
    apply Z.log2_lt_pow2; [lia |].
    pose proof (Z.log2_lxor a b ltac:(lia) ltac:(lia)) as Hl.
    assert (Z.log2 a < 32).
    { destruct (Z.eq_dec a 0) as [-> | ]; [simpl; lia |].
      apply Z.log2_lt_pow2; lia. }
    assert (Z.log2 b < 32).
    { destruct (Z.eq_dec b 0) as [-> | ]; [simpl; lia |].
      apply Z.log2_lt_pow2; lia. }
    lia.
Qed.

Lemma crc32_shift_word32 c : word32 c -> word32 (crc32_shift c).
Proof.
  intros Hc. unfold crc32_shift.
  assert (word32 (Z.shiftr c 1)).
  { unfold word32 in *. rewrite Z.shiftr_div_pow2 by lia.
    change (2 ^ 1) with 2. split.
    - apply Z.div_pos; lia.
    - apply Z.div_lt_upper_bound; lia. }
  destruct (Z.testbit c 0); [| assumption].
  apply lxor_word32; [assumption | unfold word32; lia].
Qed.

Lemma byte_word32 b : word32 (Z.of_N (Byte.to_N b)).
Proof.
  unfold word32. pose proof (Byte.to_N_bounded b). lia.
Qed.

Lemma crc32_update_word32 c b : word32 c -> word32 (crc32_update c b).
Proof.
  intros Hc. unfold crc32_update.
  assert (Hx : word32 (Z.lxor c (Z.of_N (Byte.to_N b))))
    by (apply lxor_word32; [assumption | apply byte_word32]).
  revert Hx. generalize (Z.lxor c (Z.of_N (Byte.to_N b))). intros x Hx.
  simpl. repeat apply crc32_shift_word32. assumption.
Qed.

Lemma crc32_word32 data : word32 (crc32 data).
Proof.
  unfold crc32. apply lxor_word32; [| unfold word32; lia].
  assert (H : word32 0xFFFFFFFF) by (unfold word32; lia).
  revert H. generalize 0xFFFFFFFF. induction data as [| b data IH]; intros c Hc.
  - exact Hc.
  - simpl. apply IH. apply crc32_update_word32. exact Hc.
Qed.

Lemma mask_word32 z : word32 z -> Z.land z 0xffffffff = z.
Proof.
  unfold word32. intros Hz. change 0xffffffff with (Z.ones 32).
  rewrite Z.land_ones by lia. apply Z.mod_small. exact Hz.
Qed.

(** Strings *)

Lemma append_assoc (a b c : string) : ((a ++ b) ++ c = a ++ (b ++ c))%string.
Proof. induction a as [| x a IH]; simpl; [reflexivity | now rewrite IH]. Qed.

Lemma length_append (a b : string) :
  String.length (a ++ b) = (String.length a + String.length b)%nat.
Proof. induction a as [| x a IH]; simpl; [reflexivity | now rewrite IH]. Qed.

Lemma forallb_append p (a b : string) :
  string_forallb p (a ++ b) = string_forallb p a && string_forallb p b.
Proof.
  induction a as [| x a IH]; simpl; [reflexivity |].
  rewrite IH. now rewrite andb_assoc.
Qed.

Lemma int_of_hex_from_append (a b : string) acc :
  int_of_hex_from (a ++ b) acc =
  match int_of_hex_from a acc with
  | Some v => int_of_hex_from b v
  | None => None
  end.
Proof.
  revert acc. induction a as [| x a IH]; intros acc; simpl; [reflexivity |].
  destruct (hexval x); [apply IH | reflexivity].
Qed.

(** The digits of ['%x'] *)

Lemma hexdigit_lower d : 0 <= d < 16 -> is_lower_hex (hexdigit d) = true.
Proof.
  intros Hd.
  assert (C : d = 0 \/ d = 1 \/ d = 2 \/ d = 3 \/ d = 4 \/ d = 5 \/ d = 6 \/
              d = 7 \/ d = 8 \/ d = 9 \/ d = 10 \/ d = 11 \/ d = 12 \/
              d = 13 \/ d = 14 \/ d = 15) by lia.
  repeat (destruct C as [-> | C]; [reflexivity |]). subst d. reflexivity.
Qed.

Lemma hexdigit_value d : 0 <= d < 16 -> hexval (hexdigit d) = Some d.
Proof.
  intros Hd.
  assert (C : d = 0 \/ d = 1 \/ d = 2 \/ d = 3 \/ d = 4 \/ d = 5 \/ d = 6 \/
              d = 7 \/ d = 8 \/ d = 9 \/ d = 10 \/ d = 11 \/ d = 12 \/
              d = 13 \/ d = 14 \/ d = 15) by lia.
  repeat (destruct C as [-> | C]; [reflexivity |]). subst d. reflexivity.
Qed.

Lemma hexdigit_zero d : 0 < d < 16 -> hexdigit d <> "0"%char.
Proof.
  intros Hd.
  assert (C : d = 1 \/ d = 2 \/ d = 3 \/ d = 4 \/ d = 5 \/ d = 6 \/
              d = 7 \/ d = 8 \/ d = 9 \/ d = 10 \/ d = 11 \/ d = 12 \/
              d = 13 \/ d = 14 \/ d = 15) by lia.
  repeat (destruct C as [-> | C]; [discriminate |]). subst d. discriminate.
Qed.

Lemma hex_digits_acc fuel : forall n acc,
  hex_digits fuel n acc = (hex_digits fuel n "" ++ acc)%string.
Proof.
  induction fuel as [| f IH]; intros n acc; simpl; [reflexivity |].
  destruct (n =? 0); [reflexivity |].
  rewrite (IH (n / 16) (String _ acc)), (IH (n / 16) (String _ "")).
  rewrite append_assoc. reflexivity.
Qed.

Lemma hex_digits_step f n : n <> 0 ->
  hex_digits (S f) n "" =
  (hex_digits f (n / 16) "" ++ String (hexdigit (n mod 16)) "")%string.
Proof.
  intros Hn. simpl. apply Z.eqb_neq in Hn. rewrite Hn.
  apply hex_digits_acc.
Qed.

Lemma hex_digits_lower f : forall n, 0 <= n ->
  string_forallb is_lower_hex (hex_digits f n "") = true.
Proof.
  induction f as [| f IH]; intros n Hn; [reflexivity |].
  destruct (Z.eq_dec n 0) as [-> | Hz]; [reflexivity |].
  rewrite hex_digits_step by assumption.
  rewrite forallb_append, IH by (apply Z.div_pos; lia).
  simpl. rewrite hexdigit_lower; [reflexivity |].
  apply Z.mod_pos_bound. lia.
Qed.

Lemma hex_digits_length f : forall n k, 0 <= n < 16 ^ Z.of_nat k ->
  (String.length (hex_digits f n "") <= k)%nat.
Proof.
  induction f as [| f IH]; intros n k Hn; [simpl; lia |].
  destruct (Z.eq_dec n 0) as [-> | Hz]; [simpl; lia |].
  rewrite hex_digits_step by assumption.
  rewrite length_append. simpl.
  destruct k as [| k]; [simpl in Hn; lia |].
  rewrite Nat2Z.inj_succ, Z.pow_succ_r in Hn by lia.
  assert ((String.length (hex_digits f (n / 16) "") <= k)%nat).
  { apply IH. split; [apply Z.div_pos; lia |].
    apply Z.div_lt_upper_bound; lia. }
  lia.
Qed.

Lemma hex_digits_value f : forall n, 0 <= n < 16 ^ Z.of_nat f ->
  int_of_hex (hex_digits f n "") = Some n.
Proof.
  unfold int_of_hex.
  induction f as [| f IH]; intros n Hn.
  - simpl in *. f_equal. lia.
  - destruct (Z.eq_dec n 0) as [-> | Hz]; [reflexivity |].
    rewrite hex_digits_step by assumption.
    rewrite Nat2Z.inj_succ, Z.pow_succ_r in Hn by lia.
    rewrite int_of_hex_from_append, IH.
    + cbn [int_of_hex_from].
      rewrite hexdigit_value by (apply Z.mod_pos_bound; lia).
      f_equal. pose proof (Z.div_mod n 16 ltac:(lia)). lia.
    + split; [apply Z.div_pos; lia |].
      apply Z.div_lt_upper_bound; lia.
Qed.

Lemma hex_digits_head f : forall n, 0 < n < 16 ^ Z.of_nat f ->
  exists c r, hex_digits f n "" = String c r /\ c <> "0"%char.
Proof.
  induction f as [| f IH]; intros n Hn; [simpl in Hn; lia |].
  rewrite hex_digits_step by lia.
  rewrite Nat2Z.inj_succ, Z.pow_succ_r in Hn by lia.
  destruct (Z.eq_dec (n / 16) 0) as [E | E].
  - rewrite E. destruct f; simpl.
    + eexists _, _. split; [reflexivity |]. apply hexdigit_zero.
      pose proof (Z.div_mod n 16 ltac:(lia)).
      pose proof (Z.mod_pos_bound n 16 ltac:(lia)). lia.
    + eexists _, _. split; [reflexivity |]. apply hexdigit_zero.
      pose proof (Z.div_mod n 16 ltac:(lia)).
      pose proof (Z.mod_pos_bound n 16 ltac:(lia)). lia.
  - destruct (IH (n / 16)) as (c & r & Hc & Hne).
    { assert (0 <= n / 16) by (apply Z.div_pos; lia).
      split; [lia | apply Z.div_lt_upper_bound; lia]. }
    rewrite Hc. simpl. eexists _, _. split; [reflexivity | exact Hne].
Qed.

Lemma fuel_enough n : 0 < n -> n < 16 ^ Z.of_nat (S (Z.to_nat (Z.log2 n))).
Proof.
  intros Hn. pose proof (Z.log2_nonneg n) as Hl.
  rewrite Nat2Z.inj_succ, Z2Nat.id by assumption.
  pose proof (proj2 (Z.log2_spec n Hn)) as Hu.
  apply Z.lt_le_trans with (1 := Hu).
  change 16 with (2 ^ 4). rewrite <- Z.pow_mul_r by lia.
  apply Z.pow_le_mono_r; lia.
Qed.

(** What ['%x'] renders for a 32-bit value. *)
Lemma format_x_word32 n : word32 n ->
  (1 <= String.length (format_x n) <= 8)%nat /\
  string_forallb is_lower_hex (format_x n) = true /\
  int_of_hex (format_x n) = Some n /\
  (format_x n = "0" \/
   exists c r, format_x n = String c r /\ c <> "0"%char).
Proof.
  unfold word32. intros Hn. unfold format_x.
  destruct (Z.eqb_spec n 0) as [-> | Hz].
  - simpl. repeat split; try lia; auto.
  - destruct (Z.ltb_spec n 0) as [Hneg | _]; [lia |].
    assert (Hpos : 0 < n) by lia.
    pose proof (fuel_enough n Hpos) as Hf.
    destruct (hex_digits_head _ n (conj Hpos Hf)) as (c & r & Hc & Hne).
    repeat split.
    + rewrite Hc. simpl. lia.
    + apply hex_digits_length. change (16 ^ Z.of_nat 8) with (2 ^ 32). lia.
    + apply hex_digits_lower. lia.
    + apply hex_digits_value. lia.
    + right. exists c, r. split; assumption.
Qed.

End DigestFacts.

(** ** The command encoder *)

Lemma commandkey_with_digest (s : Switchbot) (digest key : string) :
  _password_encoded s = Some digest ->
  _commandkey s key = (KEY_PASSWORD_PREFIX ++ digest ++ PRESS_KEY_SUFFIX)%string.
Proof. intros H. unfold _commandkey. rewrite H. reflexivity. Qed.

Lemma commandkey_key_irrelevant (s : Switchbot) (k1 k2 : string) :
  _commandkey s k1 = _commandkey s k2.
Proof. reflexivity. Qed.

(** C1: on a device constructed without a password the encoder returns
    ["571100"] for On, Off and Press alike, where the claim has ["570101"],
    ["570102"] and ["570100"]; with the digest ["9be3e0a3"] it returns the
    Press frame for On and Off too. *)
Theorem commandkey_at_failing_input :
  __init__ "c0:ff:ee" DEFAULT_RETRY_COUNT None
    = Ret (idle "c0:ff:ee" DEFAULT_RETRY_COUNT "") /\
  _commandkey (idle "c0:ff:ee" DEFAULT_RETRY_COUNT "") ON_KEY = "571100" /\
  _commandkey (idle "c0:ff:ee" DEFAULT_RETRY_COUNT "") OFF_KEY = "571100" /\
  _commandkey (idle "c0:ff:ee" DEFAULT_RETRY_COUNT "") PRESS_KEY = "571100" /\
  __init__ "c0:ff:ee" DEFAULT_RETRY_COUNT (Some "1234")
    = Ret (idle "c0:ff:ee" DEFAULT_RETRY_COUNT "9be3e0a3") /\
  _commandkey (idle "c0:ff:ee" DEFAULT_RETRY_COUNT "9be3e0a3") ON_KEY
    = "57119be3e0a300" /\
  _commandkey (idle "c0:ff:ee" DEFAULT_RETRY_COUNT "9be3e0a3") OFF_KEY
    = "57119be3e0a300".
Proof. vm_compute. repeat split; reflexivity. Qed.

(** ** The password digest, continued *)

Lemma encode_ascii_length (pw : string) (bs : list byte) :
  encode_ascii pw = Ret bs -> String.length pw = List.length bs.
Proof.
  revert bs. induction pw as [| c pw IH]; intros bs H; simpl in H.
  - injection H as <-. reflexivity.
  - destruct (is_ascii c); [| discriminate].
    destruct (encode_ascii pw) as [bs' |]; [| discriminate].
    injection H as <-. simpl. f_equal. apply IH. reflexivity.
Qed.

Lemma encode_ascii_total (pw : string) :
  string_forallb is_ascii pw = true ->
  exists bs, encode_ascii pw = Ret bs /\
             map (fun b => Byte.to_N b) bs
             = map N_of_ascii (list_ascii_of_string pw).
Proof.
  induction pw as [| c pw IH]; simpl; intros H.
  - exists []. split; reflexivity.
  - apply andb_true_iff in H as [Hc Hr]. rewrite Hc.
    destruct (IH Hr) as (bs & -> & Hbs).
    exists (byte_of_ascii c :: bs). split; [reflexivity |].
    simpl. f_equal; [| exact Hbs].
    apply Byte.to_of_N. symmetry. apply byte_of_ascii_via_N.
Qed.

(** C6: the digest of an absent or empty password is the empty string; the
    digest of a non-empty ASCII password is the CRC-32 of its bytes (one
    byte per character, the character's code) rendered by ['%x']: one to
    eight lowercase hexadecimal digits, no leading zero, whose value is the
    checksum.  The digest is a function of the password alone. *)
Theorem passwordcrc_digest :
  _passwordcrc None = Ret "" /\
  _passwordcrc (Some "") = Ret "" /\
  forall pw : string,
    pw <> "" -> string_forallb is_ascii pw = true ->
    exists (bs : list byte) (digest : string),
      encode_ascii pw = Ret bs /\
      map (fun b => Byte.to_N b) bs = map N_of_ascii (list_ascii_of_string pw) /\
      _passwordcrc (Some pw) = Ret digest /\
      digest = format_x (crc32 bs) /\
      0 <= crc32 bs < 2 ^ 32 /\
      int_of_hex digest = Some (crc32 bs) /\
      (1 <= String.length digest <= 8)%nat /\
      string_forallb is_lower_hex digest = true /\
      (digest = "0" \/ exists c r, digest = String c r /\ c <> "0"%char).
Proof.
  split; [reflexivity |]. split; [reflexivity |].
  intros pw Hne Hascii.
  destruct (encode_ascii_total pw Hascii) as (bs & Henc & Hbs).
  exists bs, (format_x (crc32 bs)).
  pose proof (DigestFacts.crc32_word32 bs) as Hw.
  destruct (DigestFacts.format_x_word32 _ Hw) as (Hlen & Hlow & Hval & Hhead).
  repeat split; try assumption; try apply Hw; try apply Hlen.
  unfold _passwordcrc.
  destruct (String.eqb_spec pw ""); [contradiction |].
  rewrite Henc, DigestFacts.mask_word32 by assumption. reflexivity.
Qed.

Lemma passwordcrc_digest_witness :
  exists (bs : list byte) (digest : string),
    encode_ascii "1234" = Ret bs /\
    map (fun b => Byte.to_N b) bs = map N_of_ascii (list_ascii_of_string "1234") /\
    _passwordcrc (Some "1234") = Ret digest /\
    digest = format_x (crc32 bs) /\
    0 <= crc32 bs < 2 ^ 32 /\
    int_of_hex digest = Some (crc32 bs) /\
    (1 <= String.length digest <= 8)%nat /\
    string_forallb is_lower_hex digest = true /\
    (digest = "0" \/ exists c r, digest = String c r /\ c <> "0"%char).
Proof.
  apply (proj2 (proj2 passwordcrc_digest) "1234").
  - discriminate.
  - reflexivity.
Defined.

Lemma passwordcrc_non_ascii :
  _passwordcrc (Some (String (ascii_of_N 233) "")) = Raise UnicodeEncodeError.
Proof. reflexivity. Qed.

(** ** The notification listener *)

Lemma index_in_bounds (data : list byte) (i : nat) :
  (i < List.length data)%nat ->
  exists b, nth_error data i = Some b /\ index data i = Ret (Z.of_N (Byte.to_N b)).
Proof.
  intros H. unfold index.
  destruct (nth_error data i) as [b |] eqn:E.
  - exists b. split; reflexivity.
  - apply nth_error_None in E. lia.
Qed.

Lemma index_out_of_range (data : list byte) (i : nat) :
  (List.length data <= i)%nat -> index data i = Raise IndexError.
Proof.
  intros H. unfold index.
  apply nth_error_None in H. rewrite H. reflexivity.
Qed.

Lemma index_byte_range (data : list byte) (i : nat) (v : Z) :
  index data i = Ret v -> 0 <= v <= 255.
Proof.
  unfold index. destruct (nth_error data i) as [b |]; [| discriminate].
  intros H. injection H as <-. pose proof (Byte.to_N_bounded b). lia.
Qed.

Lemma handleNotification_decodes (cHandle : Z) (data : list byte) (w : world)
      (batt raw : Z) :
  index data 1 = Ret batt -> index data 2 = Ret raw ->
  handleNotification cHandle data w
  = (Ret tt, with_battery batt (inject_Z raw / inject_Z 10) w).
Proof.
  intros H1 H2. unfold handleNotification, bind, lift. rewrite H1, H2.
  reflexivity.
Qed.

(** C8: with at least three bytes of payload both reads of the listener
    (indices 1 and 2) are in bounds and the listener returns normally,
    storing the byte at index 1; with fewer than three bytes it raises
    [IndexError] and leaves the device as it was. *)
Theorem handleNotification_bounds (cHandle : Z) (data : list byte) (w : world) :
  ((3 <= List.length data)%nat ->
   exists b1 b2,
     nth_error data 1 = Some b1 /\ nth_error data 2 = Some b2 /\
     index data 1 = Ret (Z.of_N (Byte.to_N b1)) /\
     index data 2 = Ret (Z.of_N (Byte.to_N b2)) /\
     handleNotification cHandle data w
     = (Ret tt, with_battery (Z.of_N (Byte.to_N b1))
                  (inject_Z (Z.of_N (Byte.to_N b2)) / inject_Z 10) w)) /\
  ((List.length data < 3)%nat ->
   (index data 1 = Raise IndexError \/ index data 2 = Raise IndexError) /\
   handleNotification cHandle data w = (Raise IndexError, w)).
Proof.
  split; intros H.
  - destruct (index_in_bounds data 1 ltac:(lia)) as (b1 & N1 & I1).
    destruct (index_in_bounds data 2 ltac:(lia)) as (b2 & N2 & I2).
    exists b1, b2. repeat split; try assumption.
    apply handleNotification_decodes; assumption.
  - pose proof (index_out_of_range data 2 ltac:(lia)) as I2.
    split; [right; exact I2 |].
    unfold handleNotification, bind, lift. rewrite I2.
    unfold index. destruct (nth_error data 1); reflexivity.
Qed.

Lemma handleNotification_bounds_witness :
  (exists b1 b2,
     nth_error [x00; x4b; x1e; xff] 1 = Some b1 /\
     nth_error [x00; x4b; x1e; xff] 2 = Some b2 /\
     index [x00; x4b; x1e; xff] 1 = Ret (Z.of_N (Byte.to_N b1)) /\
     index [x00; x4b; x1e; xff] 2 = Ret (Z.of_N (Byte.to_N b2)) /\
     handleNotification 19 [x00; x4b; x1e; xff] (start (idle "c0:ff:ee" 3 ""))
     = (Ret tt, with_battery (Z.of_N (Byte.to_N b1))
                  (inject_Z (Z.of_N (Byte.to_N b2)) / inject_Z 10)
                  (start (idle "c0:ff:ee" 3 "")))) /\
  ((index [x00; x4b] 1 = Raise IndexError \/ index [x00; x4b] 2 = Raise IndexError) /\
   handleNotification 19 [x00; x4b] (start (idle "c0:ff:ee" 3 ""))
   = (Raise IndexError, start (idle "c0:ff:ee" 3 ""))).
Proof.
  split.
  - apply (proj1 (handleNotification_bounds 19 [x00; x4b; x1e; xff]
                    (start (idle "c0:ff:ee" 3 "")))).
    simpl. lia.
  - apply (proj2 (handleNotification_bounds 19 [x00; x4b]
                    (start (idle "c0:ff:ee" 3 "")))).
    simpl. lia.
Defined.

(** C4, as stated, fails: after the listener has run on [00 4b 1e] the
    battery level is 75, but no attribute of the device holds the firmware
    version 3.0. *)
Lemma handleNotification_keeps_no_firmware_version :
  ~ (forall w' : world,
       handleNotification 19 [x00; x4b; x1e] (start (idle "c0:ff:ee" 3 ""))
       = (Ret tt, w') ->
       _battery_percent (self w') = Some 75 /\
       exists name fw, In (name, PyFloat fw) (vars (self w')) /\ (fw == 3)%Q).
Proof.
  intros H.
  destruct (H _ eq_refl) as (_ & name & fw & Hin & Hfw).
  simpl in Hin.
  repeat (destruct Hin as [Hin | Hin]; [try discriminate |]).
  - injection Hin as _ <-. discriminate Hfw.
  - contradiction.
Qed.

(** C4, amended: on the payload [00 4b 1e] the listener returns normally,
    stores 75 (the byte at index 1) as the battery level and changes no
    other attribute of the device; the firmware version it decodes, the
    byte at index 2 divided by 10, is 3.0 and goes to the log line only. *)
Theorem handleNotification_example (cHandle : Z) (w : world) :
  exists fw : Q,
    handleNotification cHandle [x00; x4b; x1e] w
    = (Ret tt, with_battery 75 fw w) /\
    (fw == 3)%Q /\
    _battery_percent (self (with_battery 75 fw w)) = Some 75 /\
    self (with_battery 75 fw w) = set_battery_percent (Some 75) (self w) /\
    forall name v,
      name <> "_battery_percent" ->
      (In (name, v) (vars (self (with_battery 75 fw w))) <->
       In (name, v) (vars (self w))).
Proof.
  exists (inject_Z 30 / inject_Z 10)%Q.
  split; [reflexivity |]. split; [reflexivity |].
  split; [reflexivity |]. split; [reflexivity |].
  intros name v Hname. simpl.
  split; intros H;
    repeat (destruct H as [H | H]; [auto 10 |]); try contradiction;
    injection H as <- _; contradiction Hname; reflexivity.
Qed.

(** ** Relations every step of a method preserves *)

Section Respects.

Variable env : environment.
Variable R : world -> world -> Prop.
Variable ok : event -> Prop.

Hypothesis R_refl : forall w, R w w.
Hypothesis R_trans : forall a b c, R a b -> R b c -> R a c.
Hypothesis R_calls : forall s k k' r t,
  R {| self := s; calls := k; reads := r; trace := t |}
    {| self := s; calls := k'; reads := r; trace := t |}.
Hypothesis R_reads : forall s k r r' t,
  R {| self := s; calls := k; reads := r; trace := t |}
    {| self := s; calls := k; reads := r'; trace := t |}.
Hypothesis R_bluepy : forall s k r t c o,
  R {| self := s; calls := k; reads := r; trace := t |}
    {| self := s; calls := k; reads := r; trace := (t ++ [Bluepy c o])%list |}.
Hypothesis R_emit : forall s k r t e, ok e ->
  R {| self := s; calls := k; reads := r; trace := t |}
    {| self := s; calls := k; reads := r; trace := (t ++ [e])%list |}.
Hypothesis R_device : forall s k r t d,
  R {| self := s; calls := k; reads := r; trace := t |}
    {| self := set_device d s; calls := k; reads := r; trace := t |}.
Hypothesis R_battery : forall s k r t b,
  R {| self := s; calls := k; reads := r; trace := t |}
    {| self := set_battery_percent b s; calls := k; reads := r; trace := t |}.

Hypothesis ok_Enter_connect : ok Enter_connect.
Hypothesis ok_GotBattery : forall b f, ok (GotBattery b f).

Lemma respects_ret {A} (a : A) : respects R (ret a).
Proof. intros w. apply R_refl. Qed.

Lemma respects_raise {A} (e : exn) : respects R (@raise A e).
Proof. intros w. apply R_refl. Qed.

Lemma respects_lift {A} (r : outcome A) : respects R (lift r).
Proof. intros w. apply R_refl. Qed.

Lemma respects_get_self : respects R get_self.
Proof. intros w. apply R_refl. Qed.

Lemma respects_bind {A B} (m : M A) (k : A -> M B) :
  respects R m -> (forall a, respects R (k a)) -> respects R (bind m k).
Proof.
  intros Hm Hk w. unfold bind. specialize (Hm w).
  destruct (m w) as [[a | e] w1]; simpl in *.
  - eapply R_trans; [exact Hm | apply Hk].
  - exact Hm.
Qed.

Lemma respects_try_except {A} (m h : M A) :
  respects R m -> respects R h -> respects R (try_except m h).
Proof.
  intros Hm Hh w. unfold try_except. specialize (Hm w).
  destruct (m w) as [[a | e] w1]; simpl in *; [exact Hm |].
  destruct e; try exact Hm.
  eapply R_trans; [exact Hm | apply Hh].
Qed.

Lemma respects_try_finally {A} (m : M A) (f : M unit) :
  respects R m -> respects R f -> respects R (try_finally m f).
Proof.
  intros Hm Hf w. unfold try_finally. specialize (Hm w).
  destruct (m w) as [r w1]; simpl in *. specialize (Hf w1).
  destruct (f w1) as [[u | e] w2]; simpl in *;
    eapply R_trans; eassumption.
Qed.

Lemma respects_emit (e : event) : ok e -> respects R (emit e).
Proof. intros He [s k r t]. simpl. apply R_emit. exact He. Qed.

Lemma respects_set_device d : respects R (modify_self (set_device d)).
Proof. intros [s k r t]. simpl. apply R_device. Qed.

Lemma respects_set_battery b : respects R (modify_self (set_battery_percent b)).
Proof. intros [s k r t]. simpl. apply R_battery. Qed.

Lemma respects_time_time : respects R (time_time env).
Proof. intros [s k r t]. simpl. apply R_reads. Qed.

Lemma respects_call c (body : nat -> M bool) :
  (forall k, respects R (body k)) -> respects R (call env c body).
Proof.
  intros Hb [s k r t]. unfold call. simpl.
  destruct (fails env k).
  - simpl. eapply R_trans; [apply R_calls | apply R_bluepy].
  - specialize (Hb k {| self := s; calls := S k; reads := r; trace := t |}).
    destruct (body k _) as [o [s1 k1 r1 t1]]. simpl in *.
    eapply R_trans; [apply R_calls |].
    eapply R_trans; [exact Hb | apply R_bluepy].
Qed.

Lemma respects_io c : respects R (io env c).
Proof. apply respects_call. intros k. apply respects_ret. Qed.

Lemma respects_handleNotification h data : respects R (handleNotification h data).
Proof.
  unfold handleNotification.
  apply respects_bind; [apply respects_lift | intros batt].
  apply respects_bind; [apply respects_lift | intros raw].
  apply respects_bind; [apply respects_emit, ok_GotBattery | intros _].
  apply respects_set_battery.
Qed.

Lemma respects_wait p timeout : respects R (wait_for_notifications env p timeout).
Proof.
  apply respects_call. intros k.
  destruct (notification env k) as [[h data] |]; [| apply respects_ret].
  apply respects_bind; [| intros _; apply respects_ret].
  destruct (delegate p); [apply respects_ret | apply respects_handleNotification].
Qed.

Lemma respects_connect : respects R (_connect env).
Proof.
  unfold _connect.
  apply respects_bind; [apply respects_emit, ok_Enter_connect | intros _].
  apply respects_bind; [apply respects_get_self | intros s].
  destruct (_device s); [apply respects_ret |].
  apply respects_try_except.
  - apply respects_bind; [apply respects_io | intros _].
    apply respects_set_device.
  - apply respects_bind; [apply respects_set_device | intros _].
    apply respects_raise.
Qed.

Lemma respects_writekey key : respects R (_writekey env key).
Proof.
  unfold _writekey.
  apply respects_bind; [apply respects_get_self | intros s].
  destruct (_device s); [| apply respects_raise].
  apply respects_bind; [apply respects_io | intros _].
  apply respects_bind; [apply respects_io | intros _].
  apply respects_bind; [apply respects_lift | intros val].
  apply respects_bind; [apply respects_io | intros r].
  apply respects_ret.
Qed.

Lemma respects_refresh :
  ok (Sleep 1) ->
  (forall t, respects R (modify_self (set_lastBattRefresh t))) ->
  respects R (_getBatteryPercent_FWVersion env).
Proof.
  intros Hsleep Hlast. unfold _getBatteryPercent_FWVersion.
  apply respects_bind; [apply respects_time_time | intros now].
  apply respects_bind; [apply respects_get_self | intros s].
  destruct (Qle_bool _ _); [apply respects_ret |].
  destruct (_device s) as [p |]; [| apply respects_raise].
  apply respects_bind; [apply respects_io | intros _].
  apply respects_bind; [apply respects_set_device | intros _].
  apply respects_bind; [apply respects_lift | intros val].
  apply respects_bind; [apply respects_io | intros _].
  destruct (_password_encoded s); [| apply respects_raise].
  apply respects_bind; [apply respects_writekey | intros _].
  apply respects_bind; [apply respects_wait | intros notified].
  apply respects_bind; [| intros _; apply respects_emit, Hsleep].
  destruct notified; [| apply respects_ret].
  apply respects_bind; [apply respects_time_time | intros t].
  apply Hlast.
Qed.

Lemma respects_body command :
  respects R (_getBatteryPercent_FWVersion env) ->
  respects R (try_except
                (_connect env ;; _getBatteryPercent_FWVersion env ;;
                 _writekey env command)
                (ret false)).
Proof.
  intros Hrefresh. apply respects_try_except; [| apply respects_ret].
  apply respects_bind; [apply respects_connect | intros _].
  apply respects_bind; [exact Hrefresh | intros _].
  apply respects_writekey.
Qed.

Lemma respects_disconnect :
  ok Enter_disconnect -> respects R (_disconnect env).
Proof.
  intros Hok. unfold _disconnect.
  apply respects_bind; [apply respects_emit, Hok | intros _].
  apply respects_bind; [apply respects_get_self | intros s].
  destruct (_device s); [| apply respects_ret].
  apply respects_try_finally; [| apply respects_set_device].
  apply respects_try_except; [| apply respects_ret].
  apply respects_bind; [apply respects_io | intros _; apply respects_ret].
Qed.

Lemma respects_attempt key :
  (forall e, ok e) ->
  respects R (_getBatteryPercent_FWVersion env) ->
  respects R (attempt env key).
Proof.
  intros Hok Hrefresh. unfold attempt.
  apply respects_bind; [apply respects_get_self | intros s].
  apply respects_bind; [apply respects_emit, Hok | intros _].
  apply respects_try_finally.
  - apply respects_body. exact Hrefresh.
  - apply respects_disconnect, Hok.
Qed.

Lemma respects_sendcommand key :
  (forall e, ok e) ->
  respects R (_getBatteryPercent_FWVersion env) ->
  forall retry, respects R (_sendcommand env key retry).
Proof.
  intros Hok Hrefresh retry w.
  functional induction (_sendcommand env key retry w);
    match goal with
    | E : attempt env key ?w = (_, _) |- _ =>
        pose proof (respects_attempt key Hok Hrefresh w) as Ha;
        rewrite E in Ha; simpl in Ha
    end; try exact Ha.
  eapply R_trans; [exact Ha |].
  eapply R_trans; [| exact IHp].
  pose proof (respects_emit (Sleep DEFAULT_RETRY_TIMEOUT) (Hok _) w1) as Hs.
  unfold sleep in *.
  match goal with E : emit _ w1 = _ |- _ => rewrite E in Hs end.
  exact Hs.
Qed.

End Respects.

(** ** Traces *)

Lemma quietly_refl w : quietly w w.
Proof. exists []. split; [now rewrite app_nil_r | reflexivity]. Qed.

Lemma quietly_trans a b c : quietly a b -> quietly b c -> quietly a c.
Proof.
  intros (t1 & E1 & Q1) (t2 & E2 & Q2). exists (t1 ++ t2)%list. split.
  - rewrite E2, E1, app_assoc. reflexivity.
  - rewrite forallb_app, Q1, Q2. reflexivity.
Qed.

Lemma quietly_same_trace w w' : trace w' = trace w -> quietly w w'.
Proof.
  intros E. exists []. split; [now rewrite app_nil_r | reflexivity].
Qed.

Lemma quietly_event w w' e :
  trace w' = (trace w ++ [e])%list -> quiet e = true -> quietly w w'.
Proof.
  intros E Q. exists [e]. split; [exact E | simpl; now rewrite Q].
Qed.

Ltac quietly_side :=
  first
    [ exact quietly_refl
    | exact quietly_trans
    | intros; apply quietly_same_trace; reflexivity
    | intros; eapply quietly_event; [reflexivity | first [assumption | reflexivity]]
    | intros; reflexivity
    | let w := fresh "w" in
      intros ? w; destruct w; apply quietly_same_trace; reflexivity ].

Lemma quietly_refresh env : respects quietly (_getBatteryPercent_FWVersion env).
Proof.
  apply respects_refresh with (ok := fun e => quiet e = true); quietly_side.
Qed.

Lemma quietly_body env command :
  respects quietly
    (try_except
       (_connect env ;; _getBatteryPercent_FWVersion env ;; _writekey env command)
       (ret false)).
Proof.
  apply respects_body with (ok := fun e => quiet e = true);
    first [ exact (quietly_refresh env) | quietly_side ].
Qed.

Lemma tally_app p (a b : list event) :
  tally p (a ++ b) = (tally p a + tally p b)%nat.
Proof. unfold tally. now rewrite filter_app, length_app. Qed.

Lemma tally_cons p e (a : list event) :
  tally p (e :: a) = ((if p e then 1 else 0) + tally p a)%nat.
Proof. unfold tally. simpl. destruct (p e); reflexivity. Qed.

Lemma tally_quiet p (t : list event) :
  (forall e, quiet e = true -> p e = false) ->
  forallb quiet t = true -> tally p t = O.
Proof.
  intros Hp. induction t as [| e t IH]; intros H; [reflexivity |].
  simpl in H. apply andb_true_iff in H as [He Ht].
  rewrite tally_cons, (Hp e He), IH by assumption. reflexivity.
Qed.

Lemma quiet_not_Sending e : quiet e = true -> is_Sending e = false.
Proof. unfold quiet. destruct (is_Sending e); [discriminate | reflexivity]. Qed.

Lemma quiet_not_Enter_disconnect e :
  quiet e = true -> is_Enter_disconnect e = false.
Proof.
  unfold quiet. destruct (is_Enter_disconnect e); [| reflexivity].
  rewrite orb_true_r. discriminate.
Qed.

Lemma quiet_not_backoff e : quiet e = true -> is_backoff e = false.
Proof.
  unfold quiet. destruct (is_backoff e); [| reflexivity].
  rewrite orb_true_r. discriminate.
Qed.

(** ** The connection manager and one attempt *)

Lemma set_device_None_idem (s : Switchbot) :
  _device s = None -> set_device None s = s.
Proof. destruct s; simpl; intros ->; reflexivity. Qed.

Lemma disconnect_effect env w :
  exists w' tail,
    _disconnect env w = (Ret tt, w') /\
    self w' = set_device None (self w) /\
    reads w' = reads w /\
    trace w' = (trace w ++ Enter_disconnect :: tail)%list /\
    ((_device (self w) = None /\ tail = [] /\ calls w' = calls w) \/
     (exists p o, _device (self w) = Some p /\
                  tail = [Bluepy Peripheral_disconnect o] /\
                  calls w' = S (calls w))).
Proof.
  destruct w as [s k r t].
  unfold _disconnect, bind, emit, get_self, try_finally, try_except, io, call,
    modify_self, ret. simpl.
  destruct (_device s) as [p |] eqn:Ed; simpl.
  - destruct (fails env k); simpl;
      eexists _, _; (split; [reflexivity |]); simpl;
      (split; [reflexivity |]); (split; [reflexivity |]);
      (split; [rewrite <- app_assoc; reflexivity |]);
      right; eexists _, _; repeat split; reflexivity.
  - eexists _, _. split; [reflexivity |]. simpl.
    split; [symmetry; apply set_device_None_idem; exact Ed |].
    split; [reflexivity |]. split; [reflexivity |].
    left. repeat split; reflexivity.
Qed.

Lemma attempt_shape env key w :
  exists r w' body tail,
    attempt env key w = (r, w') /\
    trace w' = (trace w ++ Sending (_commandkey (self w) key)
                  :: body ++ Enter_disconnect :: tail)%list /\
    forallb quiet body = true /\
    forallb quiet tail = true /\
    (tail = [] \/ exists o, tail = [Bluepy Peripheral_disconnect o]) /\
    _device (self w') = None.
Proof.
  unfold attempt, bind, get_self, emit, try_finally.
  set (w1 := {| self := self w; calls := calls w; reads := reads w;
                trace := (trace w ++ [Sending (_commandkey (self w) key)])%list |}).
  pose proof (quietly_body env (_commandkey (self w) key) w1) as (body & Eb & Qb).
  destruct (try_except _ _ w1) as [rb w2]. simpl in Eb.
  destruct (disconnect_effect env w2) as (w3 & tail & Ed & Es & _ & Et & Hc).
  rewrite Ed. exists rb, w3, body, tail.
  split; [reflexivity |]. split.
  - rewrite Et, Eb. unfold w1. simpl. rewrite <- !app_assoc. reflexivity.
  - split; [exact Qb |].
    assert (Ht : tail = [] \/ exists o, tail = [Bluepy Peripheral_disconnect o]).
    { destruct Hc as [(_ & -> & _) | (p & o & _ & -> & _)];
        [left; reflexivity | right; exists o; reflexivity]. }
    split; [| split; [exact Ht | rewrite Es; reflexivity]].
    destruct Ht as [-> | (o & ->)]; reflexivity.
Qed.

Lemma attempt_counts body tail cmd :
  forallb quiet body = true -> forallb quiet tail = true ->
  let t := (Sending cmd :: body ++ Enter_disconnect :: tail)%list in
  attempts t = 1%nat /\ disconnects t = 1%nat /\ backoffs t = O.
Proof.
  intros Qb Qt t. unfold t, attempts, disconnects, backoffs.
  rewrite !tally_cons, !tally_app, !tally_cons. simpl.
  rewrite !(tally_quiet is_Sending), !(tally_quiet is_Enter_disconnect),
    !(tally_quiet is_backoff)
    by (assumption || apply quiet_not_Sending
        || apply quiet_not_Enter_disconnect || apply quiet_not_backoff).
  repeat split; reflexivity.
Qed.

(** ** The command sender *)

Lemma sendcommand_unfold env key retry w :
  _sendcommand env key retry w =
  match attempt env key w with
  | (Ret true, w1) => (Ret true, w1)
  | (Ret false, w1) =>
      if retry <? 1 then (Ret false, w1)
      else _sendcommand env key (retry - 1)
             {| self := self w1; calls := calls w1; reads := reads w1;
                trace := (trace w1 ++ [Sleep DEFAULT_RETRY_TIMEOUT])%list |}
  | (Raise e, w1) => (Raise e, w1)
  end.
Proof.
  rewrite _sendcommand_equation.
  destruct (attempt env key w) as [[[|] | e] w1]; reflexivity.
Qed.


(** Whatever the transport does, a send makes between one and
    [max retry 0 + 1] attempts, enters [_disconnect] once per attempt,
    sleeps once between two attempts and leaves the device disconnected. *)
Lemma sendcommand_accounting env key : forall retry w,
  exists r w' t,
    _sendcommand env key retry w = (r, w') /\
    trace w' = (trace w ++ t)%list /\
    disconnects t = attempts t /\
    S (backoffs t) = attempts t /\
    (1 <= attempts t)%nat /\
    Z.of_nat (attempts t) <= Z.max retry 0 + 1 /\
    _device (self w') = None.
Proof.
  intros retry. remember (Z.to_nat retry) as n eqn:En. revert retry En.
  induction n as [n IH] using lt_wf_ind. intros retry En w.
  rewrite sendcommand_unfold.
  destruct (attempt_shape env key w)
    as (r & w1 & body & tail & Ea & Et & Qb & Qt & _ & Ed).
  rewrite Ea.
  destruct (attempt_counts body tail (_commandkey (self w) key) Qb Qt)
    as (Ca & Cd & Cb).
  assert (Done : forall o : outcome bool, exists r' w' t,
             (o, w1) = (r', w') /\
             trace w' = (trace w ++ t)%list /\
             disconnects t = attempts t /\ S (backoffs t) = attempts t /\
             (1 <= attempts t)%nat /\
             Z.of_nat (attempts t) <= Z.max retry 0 + 1 /\
             _device (self w') = None).
  { intros o. exists o, w1. eexists. split; [reflexivity |].
    split; [exact Et |]. rewrite Ca, Cd, Cb.
    repeat split; try reflexivity; try lia; assumption. }
  destruct r as [[|] | e]; try apply Done.
  destruct (Z.ltb_spec retry 1) as [L | L]; [apply Done |].
  set (w2 := {| self := self w1; calls := calls w1; reads := reads w1;
                trace := (trace w1 ++ [Sleep DEFAULT_RETRY_TIMEOUT])%list |}).
  destruct (IH (Z.to_nat (retry - 1)) ltac:(lia) (retry - 1) eq_refl w2)
    as (r' & w' & t' & Es & Et' & Hd & Hb & H1 & Hmax & Hdev).
  exists r', w'. eexists. split; [exact Es |]. split.
  - rewrite Et'. unfold w2. simpl. rewrite Et.
    rewrite <- !app_assoc. simpl. rewrite <- !app_assoc. simpl. reflexivity.
  - unfold attempts, disconnects, backoffs in *.
    rewrite !tally_cons, !tally_app, !tally_cons, !tally_app, !tally_cons.
    rewrite !(tally_quiet is_Sending), !(tally_quiet is_Enter_disconnect),
      !(tally_quiet is_backoff)
      by (assumption || apply quiet_not_Sending
          || apply quiet_not_Enter_disconnect || apply quiet_not_backoff).
    simpl. change (Qeq_bool DEFAULT_RETRY_TIMEOUT DEFAULT_RETRY_TIMEOUT) with true.
    repeat split; try lia. exact Hdev.
Qed.

(** *** A transport that always fails *)

Ltac unfold_methods :=
  unfold attempt, _connect, _disconnect, _getBatteryPercent_FWVersion,
    _writekey, wait_for_notifications, handleNotification, io, sleep;
  unfold call, time_time, try_finally, try_except, bind, get_self,
    modify_self, emit, lift, raise, ret.

Lemma failed_connect_set_device d s key :
  failed_connect (set_device d s) key = failed_connect s key.
Proof. reflexivity. Qed.







Lemma sendcommand_key_irrelevant env k1 k2 : forall retry w,
  _sendcommand env k1 retry w = _sendcommand env k2 retry w.
Proof.
  intros retry. remember (Z.to_nat retry) as n eqn:En. revert retry En.
  induction n as [n IH] using lt_wf_ind. intros retry En w.
  rewrite (sendcommand_unfold env k1), (sendcommand_unfold env k2).
  change (attempt env k2 w) with (attempt env k1 w).
  destruct (attempt env k1 w) as [[[|] | e] w1]; try reflexivity.
  destruct (Z.ltb_spec retry 1); [reflexivity |].
  apply (IH (Z.to_nat (retry - 1))); [lia | reflexivity].
Qed.

(** C9: [turn_on], [turn_off] and [press] return the same result and leave
    the same world (device, oracle positions and trace, hence the same
    frames written) from every world and under every environment, and the
    command-key builder returns the same frame for the three keys. *)
Theorem public_operations_coincide (env : environment) (w : world) :
  turn_on env w = press env w /\
  turn_off env w = press env w /\
  _commandkey (self w) ON_KEY = _commandkey (self w) PRESS_KEY /\
  _commandkey (self w) OFF_KEY = _commandkey (self w) PRESS_KEY /\
  forall key retry,
    _sendcommand env key retry w = _sendcommand env PRESS_KEY retry w.
Proof.
  assert (H : forall key retry,
             _sendcommand env key retry w = _sendcommand env PRESS_KEY retry w).
  { intros key retry. apply sendcommand_key_irrelevant. }
  repeat split; try reflexivity; try exact H.
  - unfold turn_on, press, bind, get_self. apply H.
  - unfold turn_off, press, bind, get_self. apply H.
Qed.

(** C3: [_disconnect] always returns normally and leaves [_device] at
    [None]; every attempt, whatever its outcome and whatever the transport
    does, enters [_disconnect] exactly once, after everything else it does,
    and ends with [_device] at [None]; along a whole send there are as many
    entries into [_disconnect] as attempts. *)
Theorem disconnect_once_per_attempt (env : environment) :
  (forall w, exists w' tail,
      _disconnect env w = (Ret tt, w') /\
      _device (self w') = None /\
      trace w' = (trace w ++ Enter_disconnect :: tail)%list /\
      disconnects tail = O) /\
  (forall key w, exists r w' body tail,
      attempt env key w = (r, w') /\
      trace w' = (trace w ++ Sending (_commandkey (self w) key)
                    :: body ++ Enter_disconnect :: tail)%list /\
      disconnects body = O /\
      (tail = [] \/ exists o, tail = [Bluepy Peripheral_disconnect o]) /\
      disconnects (Sending (_commandkey (self w) key)
                     :: body ++ Enter_disconnect :: tail) = 1%nat /\
      _device (self w') = None) /\
  (forall key retry w, exists r w' t,
      _sendcommand env key retry w = (r, w') /\
      trace w' = (trace w ++ t)%list /\
      disconnects t = attempts t /\
      _device (self w') = None).
Proof.
  split; [| split].
  - intros w.
    destruct (disconnect_effect env w) as (w' & tail & E & Es & _ & Et & Hc).
    exists w', tail. split; [exact E |]. split; [rewrite Es; reflexivity |].
    split; [exact Et |].
    destruct Hc as [(_ & -> & _) | (p & o & _ & -> & _)]; reflexivity.
  - intros key w.
    destruct (attempt_shape env key w)
      as (r & w' & body & tail & Ea & Et & Qb & Qt & Ht & Ed).
    exists r, w', body, tail.
    destruct (attempt_counts body tail (_commandkey (self w) key) Qb Qt)
      as (_ & Cd & _).
    repeat split; try assumption.
    apply tally_quiet; [apply quiet_not_Enter_disconnect | exact Qb].
  - intros key retry w.
    destruct (sendcommand_accounting env key retry w)
      as (r & w' & t & E & Et & Hd & _ & _ & _ & Hdev).
    exists r, w', t. auto.
Qed.


Lemma dead_air_always_failing : always_failing dead_air.
Proof. intros k. reflexivity. Qed.




(** ** The status refresher *)

Local Arguments index : simpl never.
Local Arguments Qle_bool : simpl never.
Local Arguments Qplus : simpl never.

Ltac branch :=
  match goal with
  | |- context [if fails ?e ?k then _ else _] => destruct (fails e k) eqn:?
  | |- context [match notification ?e ?k with _ => _ end] =>
      destruct (notification e k) as [[? ?] |] eqn:?
  | |- context [match a2b_hex ?s with _ => _ end] => destruct (a2b_hex s) eqn:?
  | |- context [match index ?d ?i with _ => _ end] => destruct (index d i) eqn:?
  | |- context [match _password_encoded ?s with _ => _ end] =>
      destruct (_password_encoded s) eqn:?
  end.

Lemma throttled_spec env w :
  throttled env w = false <->
  (BATTERY_CHECK_TIMEOUT_SECONDS
   < clock env (reads w) - _lastBattRefresh (self w))%Q.
Proof.
  unfold throttled. split.
  - intros H.
    destruct (Qlt_le_dec (BATTERY_CHECK_TIMEOUT_SECONDS)
                (clock env (reads w) - _lastBattRefresh (self w))) as [L | L];
      [exact L |].
    assert (Hle : (clock env (reads w)
                   <= _lastBattRefresh (self w) + BATTERY_CHECK_TIMEOUT_SECONDS)%Q)
      by lra.
    apply Qle_bool_iff in Hle. congruence.
  - intros H. destruct (Qle_bool _ _) eqn:E; [| reflexivity].
    apply Qle_bool_iff in E. lra.
Qed.

Lemma refresh_skip env w :
  throttled env w = true ->
  _getBatteryPercent_FWVersion env w = (Ret tt, after_reading w).
Proof.
  unfold throttled. destruct w as [s k r t]. simpl. intros Hq.
  unfold_methods. simpl. rewrite Hq. reflexivity.
Qed.

Lemma refresh_disconnected env w :
  throttled env w = false -> _device (self w) = None ->
  _getBatteryPercent_FWVersion env w = (Raise AttributeError, after_reading w).
Proof.
  unfold throttled. destruct w as [s k r t]. simpl. intros Hq Hd.
  unfold_methods. simpl. rewrite Hq, Hd. reflexivity.
Qed.

Lemma refresh_effect env w p :
  throttled env w = false -> _device (self w) = Some p ->
  exists r w' o t,
    _getBatteryPercent_FWVersion env w = (r, w') /\
    trace w' = (trace w ++ Bluepy setDelegate o :: t)%list /\
    ((existsb notified t = true /\ In (wait_returned true) t /\ r = Ret tt /\
      _lastBattRefresh (self w') = clock env (S (reads w))) \/
     (existsb notified t = false /\
      _lastBattRefresh (self w') = _lastBattRefresh (self w))) /\
    (existsb timed_out t = true ->
     _lastBattRefresh (self w') = _lastBattRefresh (self w)).
Proof.
  unfold throttled. destruct w as [s k r t]. simpl. intros Hq Hd.
  unfold_methods. simpl. rewrite Hq, Hd.
  repeat (simpl; branch).
  all: simpl; rewrite <- ?app_assoc; simpl.
  all: eexists _, _, _, _; (split; [reflexivity |]); simpl.
  all: split; [reflexivity |]; simpl.
  all: try (split; [right; split; reflexivity | intros; reflexivity]).
  all: try (split; [left; repeat split; try reflexivity; auto 20 | discriminate]).
Qed.

(** What one run of the refresher does to [_lastBattRefresh]. *)
Lemma refresh_cases env w :
  exists r w' t,
    _getBatteryPercent_FWVersion env w = (r, w') /\
    trace w' = (trace w ++ t)%list /\
    (throttled env w = true -> r = Ret tt /\ t = []) /\
    (throttled env w = false -> _device (self w) <> None -> t <> []) /\
    ((existsb notified t = true /\ In (wait_returned true) t /\ r = Ret tt /\
      throttled env w = false /\
      _lastBattRefresh (self w') = clock env (S (reads w))) \/
     (existsb notified t = false /\
      _lastBattRefresh (self w') = _lastBattRefresh (self w))) /\
    (existsb timed_out t = true ->
     _lastBattRefresh (self w') = _lastBattRefresh (self w)).
Proof.
  destruct (throttled env w) eqn:Ht.
  - rewrite refresh_skip by assumption.
    exists (Ret tt), (after_reading w), []. simpl. rewrite app_nil_r.
    repeat split; try discriminate; auto.
  - destruct (_device (self w)) as [p |] eqn:Hd.
    + destruct (refresh_effect env w p Ht Hd) as (r & w' & o & t & E & Et & Hc & Hto).
      exists r, w', (Bluepy setDelegate o :: t). split; [exact E |].
      split; [exact Et |]. split; [discriminate |].
      split; [intros _ _; discriminate |]. split; [| exact Hto].
      destruct Hc as [(Hn & Hi & Hr & Hl) | (Hn & Hl)]; [left | right];
        simpl; auto 10.
    + rewrite refresh_disconnected by assumption.
      exists (Raise AttributeError), (after_reading w), []. simpl.
      rewrite app_nil_r. repeat split; try discriminate; auto.
Qed.

Lemma refresh_last_mono env :
  monotone_clock env -> respects last_mono (_getBatteryPercent_FWVersion env).
Proof.
  intros Hclock w. unfold last_mono.
  destruct (refresh_cases env w) as (r & w' & t & E & _ & _ & _ & Hc & _).
  rewrite E. simpl.
  destruct Hc as [(_ & _ & _ & Ht & ->) | (_ & ->)]; [| apply Qle_refl].
  apply throttled_spec in Ht.
  pose proof (Hclock (reads w) (S (reads w)) ltac:(lia)).
  unfold BATTERY_CHECK_TIMEOUT_SECONDS in Ht. lra.
Qed.

Lemma sendcommand_last_mono env key retry :
  monotone_clock env -> respects last_mono (_sendcommand env key retry).
Proof.
  intros Hclock.
  apply respects_sendcommand with (ok := fun _ => True);
    first [ exact (refresh_last_mono env Hclock)
          | intros; exact I
          | intros; unfold last_mono; simpl; apply Qle_refl
          | intros a b c; unfold last_mono; apply Qle_trans ].
Qed.

Lemma clear_air_monotone : monotone_clock clear_air.
Proof.
  intros i j H. unfold clear_air. cbn [clock]. rewrite <- Zle_Qle. lia.
Qed.

(** C7: under a clock that does not run backwards, one run of the
    refresher never moves [_lastBattRefresh] back; it sets it, to the clock
    reading taken after the wait and strictly later than the old value,
    exactly when the three-second wait returned [True], and leaves it
    unchanged otherwise, in particular when the wait timed out.  The
    listener does not touch it, and a whole send never moves it back. *)
Theorem lastBattRefresh_success_gated (env : environment) (w : world) :
  monotone_clock env ->
  (exists r w' t,
      _getBatteryPercent_FWVersion env w = (r, w') /\
      trace w' = (trace w ++ t)%list /\
      (_lastBattRefresh (self w) <= _lastBattRefresh (self w'))%Q /\
      (existsb notified t = true ->
       In (wait_returned true) t /\
       _lastBattRefresh (self w') = clock env (S (reads w)) /\
       (_lastBattRefresh (self w) < _lastBattRefresh (self w'))%Q) /\
      (existsb notified t = false ->
       _lastBattRefresh (self w') = _lastBattRefresh (self w)) /\
      (existsb timed_out t = true ->
       _lastBattRefresh (self w') = _lastBattRefresh (self w))) /\
  (forall cHandle data,
      _lastBattRefresh (self (snd (handleNotification cHandle data w)))
      = _lastBattRefresh (self w)) /\
  (forall key retry,
      (_lastBattRefresh (self w)
       <= _lastBattRefresh (self (snd (_sendcommand env key retry w))))%Q).
Proof.
  intros Hclock. split; [| split].
  - destruct (refresh_cases env w) as (r & w' & t & E & Et & _ & _ & Hc & Hto).
    exists r, w', t. split; [exact E |]. split; [exact Et |].
    pose proof (refresh_last_mono env Hclock w) as Hm.
    unfold last_mono in Hm. rewrite E in Hm. simpl in Hm.
    split; [exact Hm |]. split; [| split; [| exact Hto]].
    + intros Hn.
      destruct Hc as [(_ & Hi & _ & Ht & Hl) | (Hf & _)]; [| congruence].
      split; [exact Hi |]. split; [exact Hl |].
      rewrite Hl. apply throttled_spec in Ht.
      pose proof (Hclock (reads w) (S (reads w)) ltac:(lia)).
      unfold BATTERY_CHECK_TIMEOUT_SECONDS in Ht. lra.
    + intros Hn.
      destruct Hc as [(Ht & _) | (_ & Hl)]; [congruence | exact Hl].
  - intros cHandle data. unfold handleNotification, bind, lift, emit, modify_self.
    destruct (index data 1); [| reflexivity].
    destruct (index data 2); reflexivity.
  - intros key retry. apply (sendcommand_last_mono env key retry Hclock w).
Qed.

Lemma lastBattRefresh_success_gated_witness :
  (exists w' t,
      _getBatteryPercent_FWVersion clear_air
        (start (connected (idle "c0:ff:ee" 3 ""))) = (Ret tt, w') /\
      trace w' = t /\
      In (wait_returned true) t /\
      _lastBattRefresh (self w') = clock clear_air 1 /\
      (0 < _lastBattRefresh (self w'))%Q) /\
  (exists w' t,
      _getBatteryPercent_FWVersion silent_air
        (start (connected (idle "c0:ff:ee" 3 ""))) = (Ret tt, w') /\
      trace w' = t /\
      In (wait_returned false) t /\
      _lastBattRefresh (self w') = 0%Q) /\
  (0 <= _lastBattRefresh
          (self (snd (_sendcommand clear_air ON_KEY 3
                        (start (connected (idle "c0:ff:ee" 3 "")))))))%Q.
Proof.
  split; [| split].
  - destruct (lastBattRefresh_success_gated clear_air
                (start (connected (idle "c0:ff:ee" 3 ""))))
      as ((r & w' & t & E & Et & _ & Hnot & _ & _) & _ & _).
    + intros i j H. unfold clear_air. cbn [clock]. rewrite <- Zle_Qle. lia.
    + vm_compute in E. injection E as <- <-.
      cbn [trace start app] in Et. subst t.
      destruct (Hnot eq_refl) as (Hin & Hl & Hlt).
      eexists _, _. split; [vm_compute; reflexivity |].
      split; [reflexivity |].
      split; [exact Hin |]. split; [exact Hl | exact Hlt].
  - destruct (lastBattRefresh_success_gated silent_air
                (start (connected (idle "c0:ff:ee" 3 ""))))
      as ((r & w' & t & E & Et & _ & _ & _ & Hto) & _ & _).
    + intros i j H. unfold silent_air. cbn [clock]. rewrite <- Zle_Qle. lia.
    + vm_compute in E. injection E as <- <-.
      cbn [trace start app] in Et. subst t.
      eexists _, _. split; [vm_compute; reflexivity |].
      split; [reflexivity |].
      split; [cbn; auto 10 | exact (Hto eq_refl)].
  - destruct (lastBattRefresh_success_gated clear_air
                (start (connected (idle "c0:ff:ee" 3 ""))))
      as (_ & _ & Hsend).
    + intros i j H. unfold clear_air. cbn [clock]. rewrite <- Zle_Qle. lia.
    + exact (Hsend ON_KEY 3).
Defined.

(** C5, as stated, fails: exactly 3600 seconds after the last refresh the
    refresher does not proceed. *)
Lemma refresh_skips_at_one_hour :
  ~ (proceeds dead_air (start (connected (idle "c0:ff:ee" 3 ""))) <->
     (BATTERY_CHECK_TIMEOUT_SECONDS
      <= clock dead_air (reads (start (connected (idle "c0:ff:ee" 3 ""))))
         - _lastBattRefresh (self (start (connected (idle "c0:ff:ee" 3 "")))))%Q).
Proof.
  intros [_ H]. apply H.
  - vm_compute. discriminate.
  - vm_compute. reflexivity.
Qed.

(** C5, amended: on a connected device the refresher proceeds exactly when
    more than 3600 seconds have passed since [_lastBattRefresh]; otherwise
    (3600 seconds or less) it returns at once, normally, having read the
    clock and nothing else.  After a refresh during which the notification
    arrived and the clock did not run backwards, a refresh whose clock
    reading is within 3600 seconds of the first one's returns at once too,
    with nothing added to the trace. *)
Theorem refresh_throttle (env : environment) (w : world) :
  (forall p, _device (self w) = Some p ->
     (proceeds env w <->
      (BATTERY_CHECK_TIMEOUT_SECONDS
       < clock env (reads w) - _lastBattRefresh (self w))%Q)) /\
  (~ (BATTERY_CHECK_TIMEOUT_SECONDS
      < clock env (reads w) - _lastBattRefresh (self w))%Q ->
   _getBatteryPercent_FWVersion env w = (Ret tt, after_reading w)) /\
  (forall w1 t1 w2,
     _getBatteryPercent_FWVersion env w = (Ret tt, w1) ->
     trace w1 = (trace w ++ t1)%list ->
     existsb notified t1 = true ->
     (clock env (reads w) <= clock env (S (reads w)))%Q ->
     (_lastBattRefresh (self w2) == _lastBattRefresh (self w1))%Q ->
     (clock env (reads w2) - clock env (reads w)
      <= BATTERY_CHECK_TIMEOUT_SECONDS)%Q ->
     _getBatteryPercent_FWVersion env w2 = (Ret tt, after_reading w2) /\
     trace (after_reading w2) = trace w2).
Proof.
  split; [| split].
  - intros p Hd. rewrite <- throttled_spec. unfold proceeds. split.
    + intros Hp. destruct (throttled env w) eqn:Ht; [| reflexivity].
      rewrite refresh_skip in Hp by assumption. contradiction Hp. reflexivity.
    + intros Ht.
      destruct (refresh_effect env w p Ht Hd) as (r & w' & o & t & E & Et & _).
      rewrite E. simpl. rewrite Et. intros Habs.
      rewrite <- (app_nil_r (trace w)) in Habs at 2.
      apply app_inv_head in Habs. discriminate.
  - intros Hn. apply refresh_skip.
    destruct (throttled env w) eqn:Ht; [reflexivity |].
    apply throttled_spec in Ht. contradiction.
  - intros w1 t1 w2 E Et Hn Hclock Hlast Hnear.
    split; [| reflexivity]. apply refresh_skip.
    destruct (refresh_cases env w) as (r & w' & t & E' & Et' & _ & _ & Hc & _).
    rewrite E in E'. injection E' as <- <-.
    rewrite Et in Et'. apply app_inv_head in Et'. subst t.
    destruct Hc as [(_ & _ & _ & _ & Hl) | (Hf & _)]; [| congruence].
    unfold throttled. apply Qle_bool_iff.
    rewrite Hlast, Hl. lra.
Qed.

Lemma refresh_throttle_witness :
  (proceeds clear_air (start (connected (idle "c0:ff:ee" 3 ""))) <->
   (BATTERY_CHECK_TIMEOUT_SECONDS
    < clock clear_air (reads (start (connected (idle "c0:ff:ee" 3 ""))))
      - _lastBattRefresh (self (start (connected (idle "c0:ff:ee" 3 "")))))%Q) /\
  _getBatteryPercent_FWVersion dead_air (start (connected (idle "c0:ff:ee" 3 "")))
  = (Ret tt, after_reading (start (connected (idle "c0:ff:ee" 3 "")))) /\
  (_getBatteryPercent_FWVersion clear_air
     (snd (_getBatteryPercent_FWVersion clear_air
             (start (connected (idle "c0:ff:ee" 3 "")))))
   = (Ret tt,
      after_reading
        (snd (_getBatteryPercent_FWVersion clear_air
                (start (connected (idle "c0:ff:ee" 3 "")))))) /\
   trace (after_reading
            (snd (_getBatteryPercent_FWVersion clear_air
                    (start (connected (idle "c0:ff:ee" 3 ""))))))
   = trace (snd (_getBatteryPercent_FWVersion clear_air
                   (start (connected (idle "c0:ff:ee" 3 "")))))).
Proof.
  split; [| split].
  - apply (proj1 (refresh_throttle clear_air
                    (start (connected (idle "c0:ff:ee" 3 ""))))
             {| deviceAddr := "c0:ff:ee"; delegate := DefaultDelegate |}).
    reflexivity.
  - apply (proj1 (proj2 (refresh_throttle dead_air
                           (start (connected (idle "c0:ff:ee" 3 "")))))).
    vm_compute. intros H. discriminate H.
  - apply (proj2 (proj2 (refresh_throttle clear_air
                           (start (connected (idle "c0:ff:ee" 3 "")))))
             (snd (_getBatteryPercent_FWVersion clear_air
                     (start (connected (idle "c0:ff:ee" 3 "")))))
             (trace (snd (_getBatteryPercent_FWVersion clear_air
                     (start (connected (idle "c0:ff:ee" 3 "")))))));
      vm_compute; try reflexivity; try (intros H; discriminate H).
Defined.

(** * Further properties of the class *)

(** ** Attributes fixed at construction *)

Lemma same_identity_refl w : same_identity w w.
Proof. repeat split. Qed.

Lemma same_identity_trans a b c :
  same_identity a b -> same_identity b c -> same_identity a c.
Proof.
  unfold same_identity. intros (M1 & C1 & P1) (M2 & C2 & P2).
  repeat split; congruence.
Qed.

Lemma same_identity_refresh env :
  respects same_identity (_getBatteryPercent_FWVersion env).
Proof.
  apply respects_refresh with (ok := fun _ => True);
    first [ exact same_identity_refl
          | exact same_identity_trans
          | exact I
          | intros; exact I
          | intros; repeat split
          | let w := fresh "w" in intros ? w; destruct w; repeat split ].
Qed.

(** X1: no send, whatever the transport does and however it ends, changes
    the address, the retry count or the password digest of the device;
    neither do the refresher and the listener. *)
Theorem identity_is_kept (env : environment) (w : world) :
  (forall key retry, same_identity w (snd (_sendcommand env key retry w))) /\
  same_identity w (snd (turn_on env w)) /\
  same_identity w (snd (turn_off env w)) /\
  same_identity w (snd (press env w)) /\
  same_identity w (snd (_getBatteryPercent_FWVersion env w)) /\
  (forall cHandle data,
      same_identity w (snd (handleNotification cHandle data w))).
Proof.
  assert (Hsend : forall key retry,
             respects same_identity (_sendcommand env key retry)).
  { intros key retry.
    apply respects_sendcommand with (ok := fun _ => True);
      first [ exact same_identity_refl
            | exact same_identity_trans
            | exact (same_identity_refresh env)
            | intros; exact I
            | intros; repeat split ]. }
  split; [intros key retry; apply Hsend |].
  split; [apply (Hsend ON_KEY) |]. split; [apply (Hsend OFF_KEY) |].
  split; [apply (Hsend PRESS_KEY) |].
  split; [apply same_identity_refresh |].
  intros cHandle data.
  apply respects_handleNotification with (ok := fun _ => True);
    first [ exact same_identity_refl
          | exact same_identity_trans
          | intros; exact I
          | intros; repeat split ].
Qed.

(** ** The connection manager, method by method *)

Lemma a2b_hex_cases (s : string) :
  (exists val, a2b_hex s = Ret val) \/ a2b_hex s = Raise BinasciiError.
Proof.
  destruct (a2b_hex s) as [val | e] eqn:E; [left; exists val; reflexivity |].
  right. f_equal.
  revert e E. generalize (Nat.le_refl (String.length s)).
  generalize (String.length s) at 2. intros n. revert s.
  induction n as [| n IH]; intros s Hn e E.
  - destruct s; simpl in *; [discriminate | lia].
  - destruct s as [| c1 [| c2 r]]; simpl in E; try discriminate.
    + injection E as <-. reflexivity.
    + destruct (hexval c1); [| injection E as <-; reflexivity].
      destruct (hexval c2); [| injection E as <-; reflexivity].
      destruct (a2b_hex r); [discriminate | injection E as <-; reflexivity].
Qed.

Lemma index_cases (data : list byte) (i : nat) :
  (exists v, index data i = Ret v) \/ index data i = Raise IndexError.
Proof.
  unfold index. destruct (nth_error data i) as [b |];
    [left; eexists; reflexivity | right; reflexivity].
Qed.

(** X2: [_connect] returns normally exactly when it leaves a connection
    on the device and raises nothing but [BTLEException], and then with no
    connection on the device; it makes one call into [bluepy], to the
    address of the device, when the device is disconnected and none when it
    is connected, in which case it changes nothing. *)
Theorem connect_outcomes (env : environment) (w : world) :
  exists r w',
    _connect env w = (r, w') /\
    ((r = Ret tt /\ _device (self w') <> None) \/
     (r = Raise BTLEException /\ _device (self w') = None)) /\
    (_device (self w) <> None ->
     r = Ret tt /\ w' = logged Enter_connect w) /\
    (_device (self w) = None ->
     calls w' = S (calls w) /\
     trace w' = (trace w ++ [Enter_connect;
                             Bluepy (Peripheral_new (_mac (self w)))
                               (if fails env (calls w)
                                then Raise BTLEException
                                else Ret (acks env (calls w)))])%list /\
     (r = Ret tt <-> fails env (calls w) = false)).
Proof.
  destruct w as [s k r t]. unfold_methods. simpl.
  destruct (_device s) as [p |] eqn:Hd; simpl.
  - eexists _, _. split; [reflexivity |]. simpl. rewrite Hd.
    split; [left; split; [reflexivity | discriminate] |].
    split; [intros _; split; reflexivity | discriminate].
  - destruct (fails env k); simpl;
      eexists _, _; (split; [reflexivity |]); simpl;
      rewrite <- ?app_assoc; simpl.
    + split; [right; split; reflexivity |].
      split; [intros H; contradiction H; reflexivity |].
      intros _. repeat split; try reflexivity; discriminate.
    + split; [left; split; [reflexivity | discriminate] |].
      split; [intros H; contradiction H; reflexivity |].
      intros _. repeat split; reflexivity.
Qed.

(** X3: [_disconnect] is idempotent: it makes at most one call into
    [bluepy], and run again right after itself it makes none and changes
    nothing on the device. *)
Theorem disconnect_idempotent (env : environment) (w : world) :
  exists w1,
    _disconnect env w = (Ret tt, w1) /\
    (calls w1 <= S (calls w))%nat /\
    (_device (self w) = None -> calls w1 = calls w /\ self w1 = self w) /\
    _disconnect env w1 = (Ret tt, logged Enter_disconnect w1) /\
    (_disconnect env ;; _disconnect env) w
    = (Ret tt, logged Enter_disconnect w1).
Proof.
  destruct (disconnect_effect env w) as (w1 & tail & E & Es & _ & _ & Hc).
  exists w1. split; [exact E |].
  assert (Hd : _device (self w1) = None) by (rewrite Es; reflexivity).
  assert (E1 : _disconnect env w1 = (Ret tt, logged Enter_disconnect w1)).
  { destruct w1 as [s1 k1 r1 t1]. simpl in Hd. unfold_methods. simpl.
    rewrite Hd. reflexivity. }
  split; [destruct Hc as [(_ & _ & ->) | (p & o & _ & _ & ->)]; lia |].
  split.
  { intros Hn. destruct Hc as [(_ & _ & Hk) | (p & o & Hp & _)];
      [| congruence].
    split; [exact Hk |]. rewrite Es. apply set_device_None_idem. exact Hn. }
  split; [exact E1 |].
  unfold bind. rewrite E. exact E1.
Qed.

(** X4: [_writekey] on a disconnected device raises [AttributeError]
    without calling anything.  On a connected device it looks up service
    and characteristic, and it returns [b] only if the key is valid
    hexadecimal, its bytes were written with response and [b] is what the
    write returned; a key that is no valid hexadecimal is never written. *)
Theorem writekey_outcomes (env : environment) (key : string) (w : world) :
  exists r w' t,
    _writekey env key w = (r, w') /\
    trace w' = (trace w ++ t)%list /\
    self w' = self w /\
    (_device (self w) = None -> r = Raise AttributeError /\ t = []) /\
    (forall b, r = Ret b ->
       exists val,
         a2b_hex key = Ret val /\
         b = acks env (S (S (calls w))) /\
         t = [Bluepy (getServiceByUUID SERVICE_UUID) (Ret (acks env (calls w)));
              Bluepy (getCharacteristics HANDLE)
                (Ret (acks env (S (calls w))));
              Bluepy (Characteristic_write HANDLE val true) (Ret b)]) /\
    (a2b_hex key = Raise BinasciiError ->
     tally is_write t = O /\
     (r = Raise BTLEException \/ r = Raise BinasciiError \/
      r = Raise AttributeError)).
Proof.
  destruct w as [s k r t]. unfold_methods. simpl.
  destruct (_device s) as [p |] eqn:Hd; simpl.
  2:{ exists (Raise AttributeError). eexists. exists [].
      split; [reflexivity |]. simpl. rewrite app_nil_r.
      repeat split; try discriminate; auto. }
  destruct (fails env k) eqn:F0; simpl.
  { eexists _, _, _. split; [reflexivity |]. simpl.
    split; [reflexivity |]. split; [reflexivity |].
    split; [discriminate |]. split; [discriminate |].
    intros _. split; [reflexivity | auto]. }
  destruct (fails env (S k)) eqn:F1; simpl.
  { eexists _, _, _. split; [reflexivity |]. simpl.
    rewrite <- app_assoc. split; [reflexivity |]. split; [reflexivity |].
    split; [discriminate |]. split; [discriminate |].
    intros _. split; [reflexivity | auto]. }
  destruct (a2b_hex_cases key) as [[val Hk] | Hk]; rewrite Hk; simpl.
  2:{ eexists _, _, _. split; [reflexivity |]. simpl.
      rewrite <- app_assoc. split; [reflexivity |]. split; [reflexivity |].
      split; [discriminate |]. split; [discriminate |].
      intros _. split; [reflexivity | auto]. }
  destruct (fails env (S (S k))) eqn:F2; simpl;
    eexists _, _, _; (split; [reflexivity |]); simpl;
    rewrite <- !app_assoc; (split; [reflexivity |]);
    (split; [reflexivity |]); (split; [discriminate |]).
  - split; [discriminate | discriminate].
  - split; [| discriminate].
    intros b Hb. injection Hb as <-. exists val. repeat split.
Qed.

(** ** Frames on the wire *)

Lemma a2b_hex_pairs (P : string -> Prop) :
  P "" ->
  (forall c, P (String c "")) ->
  (forall c1 c2 r, P r -> P (String c1 (String c2 r))) ->
  forall s, P s.
Proof.
  intros H0 H1 H2 s.
  assert (H : P s /\ forall c, P (String c s)).
  { induction s as [| c s [IHs IHc]]; [split; auto |].
    split; [apply IHc | intros c'; apply H2; exact IHs]. }
  apply H.
Qed.

Lemma a2b_hex_length (s : string) (val : list byte) :
  a2b_hex s = Ret val -> String.length s = (2 * List.length val)%nat.
Proof.
  revert val. induction s as [| c | c1 c2 r IH] using a2b_hex_pairs;
    intros val H; simpl in H.
  - injection H as <-. reflexivity.
  - discriminate.
  - destruct (hexval c1); [| discriminate].
    destruct (hexval c2); [| discriminate].
    destruct (a2b_hex r) as [bs |]; [| discriminate].
    injection H as <-. simpl. rewrite (IH bs eq_refl). lia.
Qed.

Lemma a2b_hex_append (s1 s2 : string) (v1 : list byte) :
  a2b_hex s1 = Ret v1 ->
  a2b_hex (s1 ++ s2)
  = match a2b_hex s2 with
    | Ret v2 => Ret (v1 ++ v2)%list
    | Raise _ => Raise BinasciiError
    end.
Proof.
  revert v1. induction s1 as [| c | c1 c2 r IH] using a2b_hex_pairs;
    intros v1 H; simpl in H.
  - injection H as <-. simpl.
    destruct (a2b_hex_cases s2) as [[v ->] | ->]; reflexivity.
  - discriminate.
  - destruct (hexval c1) as [h |] eqn:E1; [| discriminate].
    destruct (hexval c2) as [l |] eqn:E2; [| discriminate].
    destruct (a2b_hex r) as [bs |]; [| discriminate].
    injection H as <-. simpl. rewrite E1, E2, (IH bs eq_refl).
    destruct (a2b_hex s2); reflexivity.
Qed.

Lemma a2b_hex_lower (s : string) :
  string_forallb is_lower_hex s = true ->
  Nat.even (String.length s) = true ->
  exists val, a2b_hex s = Ret val.
Proof.
  induction s as [| c | c1 c2 r IH] using a2b_hex_pairs; intros Hl He.
  - exists []. reflexivity.
  - discriminate He.
  - simpl in Hl. apply andb_true_iff in Hl as [H1 Hl].
    apply andb_true_iff in Hl as [H2 Hl].
    destruct (IH Hl He) as (bs & Hbs).
    assert (Hv : forall c, is_lower_hex c = true -> exists d, hexval c = Some d).
    { intros c. unfold is_lower_hex, hexval.
      destruct ((48 <=? _) && (_ <=? 57)); [eauto |].
      destruct ((97 <=? _) && (_ <=? 102)); [eauto | discriminate]. }
    destruct (Hv c1 H1) as (h & Hh). destruct (Hv c2 H2) as (l & Hlo).
    simpl. rewrite Hh, Hlo, Hbs. eauto.
Qed.

Lemma a2b_hex_append_raise (s : string) (c1 c2 : ascii) :
  a2b_hex s = Raise BinasciiError ->
  a2b_hex (s ++ String c1 (String c2 "")) = Raise BinasciiError.
Proof.
  induction s as [| c | d1 d2 r IH] using a2b_hex_pairs; intros H.
  - discriminate H.
  - simpl. destruct (hexval c); [| reflexivity].
    destruct (hexval c1); reflexivity.
  - simpl in *.
    destruct (hexval d1); [| reflexivity].
    destruct (hexval d2); [| reflexivity].
    destruct (a2b_hex_cases r) as [[bs Hr] | Hr]; rewrite Hr in H;
      [discriminate |].
    rewrite (IH Hr). reflexivity.
Qed.

Lemma a2b_hex_odd (s : string) :
  Nat.odd (String.length s) = true -> a2b_hex s = Raise BinasciiError.
Proof.
  intros Hodd.
  destruct (a2b_hex_cases s) as [[val Hval] | Hval]; [| exact Hval].
  apply a2b_hex_length in Hval. rewrite Hval in Hodd.
  rewrite Nat.odd_mul in Hodd. discriminate.
Qed.

Lemma commandkey_bytes (s : Switchbot) (key d : string) (bs : list byte) :
  _password_encoded s = Some d -> a2b_hex d = Ret bs ->
  a2b_hex (_commandkey s key) = Ret (x57 :: x11 :: bs ++ [x00])%list.
Proof.
  intros Hd Hbs. rewrite (commandkey_with_digest s d key Hd).
  change (KEY_PASSWORD_PREFIX ++ d ++ PRESS_KEY_SUFFIX)%string
    with (String "5" (String "7" (String "1" (String "1"
           (d ++ PRESS_KEY_SUFFIX)%string)))).
  cbn [a2b_hex]. rewrite (a2b_hex_append d PRESS_KEY_SUFFIX bs Hbs).
  reflexivity.
Qed.

Lemma commandkey_no_bytes (s : Switchbot) (key d : string) :
  _password_encoded s = Some d -> a2b_hex d = Raise BinasciiError ->
  a2b_hex (_commandkey s key) = Raise BinasciiError.
Proof.
  intros Hd Hbs. rewrite (commandkey_with_digest s d key Hd).
  change (KEY_PASSWORD_PREFIX ++ d ++ PRESS_KEY_SUFFIX)%string
    with (String "5" (String "7" (String "1" (String "1"
           (d ++ PRESS_KEY_SUFFIX)%string)))).
  cbn [a2b_hex].
  unfold PRESS_KEY_SUFFIX. rewrite (a2b_hex_append_raise d _ _ Hbs).
  reflexivity.
Qed.

Lemma info_bytes (d : string) :
  a2b_hex (INFO_PREFIX ++ d)
  = match a2b_hex d with
    | Ret bs => Ret (x57 :: x12 :: bs)
    | Raise _ => Raise BinasciiError
    end.
Proof.
  change (INFO_PREFIX ++ d)%string
    with (String "5" (String "7" (String "1" (String "2" d)))).
  cbn [a2b_hex]. destruct (a2b_hex d); reflexivity.
Qed.

(** X5: on a device with digest [d], the command frame and the status
    query can be turned into bytes exactly when [d] can, and then they are
    [57 11], the bytes of [d], [00], and [57 12], the bytes of [d]; a digest
    with an odd number of digits is never turned into bytes. *)
Theorem frames_on_the_wire (s : Switchbot) (key d : string) :
  _password_encoded s = Some d ->
  (forall bs, a2b_hex d = Ret bs ->
     a2b_hex (_commandkey s key) = Ret (x57 :: x11 :: bs ++ [x00])%list /\
     a2b_hex (INFO_PREFIX ++ d) = Ret (x57 :: x12 :: bs)) /\
  (a2b_hex d = Raise BinasciiError ->
     a2b_hex (_commandkey s key) = Raise BinasciiError /\
     a2b_hex (INFO_PREFIX ++ d) = Raise BinasciiError) /\
  (Nat.odd (String.length d) = true -> a2b_hex d = Raise BinasciiError).
Proof.
  intros Hd. split; [| split].
  - intros bs Hbs. split; [apply (commandkey_bytes s key d bs Hd Hbs) |].
    rewrite info_bytes, Hbs. reflexivity.
  - intros Hbs. split; [apply (commandkey_no_bytes s key d Hd Hbs) |].
    rewrite info_bytes, Hbs. reflexivity.
  - apply a2b_hex_odd.
Qed.

(** X6: the digest of a non-empty ASCII password can be turned into bytes,
    and so can the frames built from it, exactly when it has an even number
    of digits. *)
Theorem password_digest_parity (pw : string) :
  pw <> "" -> string_forallb is_ascii pw = true ->
  exists d,
    _passwordcrc (Some pw) = Ret d /\
    ((exists bs, a2b_hex d = Ret bs) <-> Nat.even (String.length d) = true) /\
    (Nat.even (String.length d) = false -> a2b_hex d = Raise BinasciiError).
Proof.
  intros Hne Hascii.
  destruct (encode_ascii_total pw Hascii) as (bs & Henc & _).
  pose proof (DigestFacts.crc32_word32 bs) as Hw.
  destruct (DigestFacts.format_x_word32 _ Hw) as (_ & Hlow & _ & _).
  exists (format_x (crc32 bs)). split.
  - unfold _passwordcrc. destruct (String.eqb_spec pw ""); [contradiction |].
    rewrite Henc, DigestFacts.mask_word32 by assumption. reflexivity.
  - split; [split |].
    + intros (val & Hval). apply a2b_hex_length in Hval. rewrite Hval.
      rewrite Nat.even_mul. reflexivity.
    + intros He. apply a2b_hex_lower; assumption.
    + intros He.
      destruct (a2b_hex_cases (format_x (crc32 bs))) as [[val Hval] | Hval];
        [| exact Hval].
      apply a2b_hex_length in Hval. rewrite Hval, Nat.even_mul in He.
      discriminate He.
Qed.

Lemma password_digest_parity_witness :
  (exists d, _passwordcrc (Some "1234") = Ret d /\
             Nat.even (String.length d) = true /\
             exists bs, a2b_hex d = Ret bs) /\
  (exists d, _passwordcrc (Some "c") = Ret d /\
             Nat.even (String.length d) = false /\
             a2b_hex d = Raise BinasciiError).
Proof.
  split.
  - destruct (password_digest_parity "1234") as (d & Hd & Hiff & _);
      [discriminate | reflexivity |].
    exists d. split; [exact Hd |].
    assert (He : Nat.even (String.length d) = true).
    { vm_compute in Hd. injection Hd as <-. reflexivity. }
    split; [exact He | apply Hiff; exact He].
  - destruct (password_digest_parity "c") as (d & Hd & _ & Hodd);
      [discriminate | reflexivity |].
    exists d. split; [exact Hd |].
    assert (He : Nat.even (String.length d) = false).
    { vm_compute in Hd. injection Hd as <-. reflexivity. }
    split; [exact He | apply Hodd; exact He].
Defined.

Lemma frames_on_the_wire_witness :
  a2b_hex (_commandkey (idle "c0:ff:ee" 3 "9be3e0a3") ON_KEY)
  = Ret [x57; x11; x9b; xe3; xe0; xa3; x00] /\
  a2b_hex (INFO_PREFIX ++ "9be3e0a3") = Ret [x57; x12; x9b; xe3; xe0; xa3] /\
  a2b_hex (_commandkey (idle "c0:ff:ee" 3 "6b9df6f") ON_KEY)
  = Raise BinasciiError /\
  a2b_hex (INFO_PREFIX ++ "6b9df6f") = Raise BinasciiError.
Proof.
  destruct (frames_on_the_wire (idle "c0:ff:ee" 3 "9be3e0a3") ON_KEY
              "9be3e0a3" eq_refl) as (Hok & _ & _).
  destruct (Hok [x9b; xe3; xe0; xa3] eq_refl) as (Hc & Hi).
  destruct (frames_on_the_wire (idle "c0:ff:ee" 3 "6b9df6f") ON_KEY
              "6b9df6f" eq_refl) as (_ & Hbad & Hodd).
  destruct (Hbad (Hodd eq_refl)) as (Hc' & Hi').
  repeat split; assumption.
Defined.

(** ** One attempt, path by path *)

Local Arguments a2b_hex : simpl never.

Ltac path_step :=
  match goal with
  | |- context [match ?x with Some _ => _ | None => _ end] =>
      is_var x; destruct x
  | |- context [if Qle_bool ?a ?b then _ else _] =>
      destruct (Qle_bool a b) eqn:?
  | |- context [if fails ?e ?k then _ else _] => destruct (fails e k) eqn:?
  | |- context [match notification ?e ?k with _ => _ end] =>
      destruct (notification e k) as [[? ?] |] eqn:?
  | |- context [match index ?d ?i with _ => _ end] =>
      let H := fresh "Hidx" in
      destruct (index_cases d i) as [[? H] | H]; rewrite H
  | |- context [match a2b_hex ?s with _ => _ end] =>
      let H := fresh "Hhex" in
      destruct (a2b_hex_cases s) as [[? H] | H]; rewrite H
  end.

Ltac attempt_paths :=
  unfold attempt, bind at 1, get_self at 1;
  cbv beta iota zeta;
  match goal with
  | |- context [_commandkey ?s ?k] =>
      let cmd := fresh "cmd" in
      let E := fresh "Ecmd" in
      remember (_commandkey s k) as cmd eqn:E
  end;
  unfold_methods;
  change (a2b_hex "0100") with (@Ret (list byte) [x01; x00]);
  repeat (simpl; path_step);
  simpl; rewrite <- ?app_assoc; simpl.

Ltac allowed_event :=
  simpl;
  first
    [ exact I
    | reflexivity
    | left; repeat split; reflexivity
    | right; left; split; [reflexivity |]; split; [reflexivity |];
      eexists; split; [reflexivity | eassumption]
    | right; right; split; [reflexivity |]; split; [reflexivity |];
      match goal with
      | H : a2b_hex ?c = Ret _, E : ?c = _ |- _ => rewrite E in H; exact H
      end ].

Ltac answering_case Hf Ha Hn :=
  first
    [ discriminate
    | match goal with
      | H : fails _ ?k = true |- _ => rewrite Hf in H; discriminate H
      end
    | match goal with
      | H : index ?l ?i = Raise IndexError,
        N : notification _ ?k = Some (_, ?l) |- _ =>
          apply Hn in N;
          destruct (index_in_bounds l i ltac:(lia)) as (? & _ & ?);
          congruence
      end
    | rewrite ?Ha; reflexivity ].

Lemma attempt_facts env key w :
  exists r w' t,
    attempt env key w = (r, w') /\
    trace w' = (trace w ++ t)%list /\
    Forall (allowed (self w)) t /\
    _battery_percent (self w') = last_battery t (_battery_percent (self w)) /\
    (r = Ret true ->
     exists val, a2b_hex (_commandkey (self w) key) = Ret val /\
                 In (acknowledged val) t) /\
    (forall e, r = Raise e ->
       e = IndexError \/ e = BinasciiError \/
       (e = TypeError /\ _password_encoded (self w) = None)) /\
    tally is_connect t
    = match _device (self w) with Some _ => O | None => 1%nat end /\
    (throttled env w = true ->
     tally is_status_call t = O /\ (tally is_write t <= 1)%nat /\
     _lastBattRefresh (self w') = _lastBattRefresh (self w) /\
     (reads w <= reads w' <= S (reads w))%nat) /\
    (answering env -> _device (self w) = None ->
     (exists d, _password_encoded (self w) = Some d /\
                a2b_hex (INFO_PREFIX ++ d) <> Raise BinasciiError) ->
     a2b_hex (_commandkey (self w) key) <> Raise BinasciiError ->
     r = Ret true).
Proof.
  unfold throttled.
  destruct w as [[mac dev rc pw last batt] k r t].
  attempt_paths.
  all: eexists _, _, _; (split; [reflexivity |]); simpl.
  all: split; [reflexivity |].
  all: split;
    [repeat (apply Forall_cons; [allowed_event |]); apply Forall_nil |].
  all: split; [reflexivity |].
  all: split;
    [ intros Hr;
      first [ discriminate Hr
            | injection Hr as Hr;
              eexists; split;
              [first [eassumption | reflexivity]
              | rewrite Hr; simpl; auto 20] ] |].
  all: split;
    [ intros e He;
      first [ discriminate He | injection He as <-; auto ] |].
  all: split; [reflexivity |].
  all: split;
    [ intros Hq;
      first [ discriminate Hq
            | split; [reflexivity |];
              split; [unfold tally; simpl; lia |];
              split; [reflexivity | lia] ] |].
  all: intros (Hf & Ha & Hn) Hdev (d & Hd & Hinfo) Hcmd;
    try (injection Hd as <-);
    try (contradiction Hinfo; assumption);
    try (contradiction Hcmd; reflexivity);
    answering_case Hf Ha Hn.
Qed.

Lemma attempt_facts_at env key w r w1 t :
  attempt env key w = (r, w1) ->
  trace w1 = (trace w ++ t)%list ->
  Forall (allowed (self w)) t /\
  _battery_percent (self w1) = last_battery t (_battery_percent (self w)) /\
  (r = Ret true ->
   exists val, a2b_hex (_commandkey (self w) key) = Ret val /\
               In (acknowledged val) t) /\
  (forall e, r = Raise e ->
     e = IndexError \/ e = BinasciiError \/
     (e = TypeError /\ _password_encoded (self w) = None)) /\
  tally is_connect t
  = match _device (self w) with Some _ => O | None => 1%nat end /\
  (throttled env w = true ->
   tally is_status_call t = O /\ (tally is_write t <= 1)%nat /\
   _lastBattRefresh (self w1) = _lastBattRefresh (self w) /\
   (reads w <= reads w1 <= S (reads w))%nat) /\
  (answering env -> _device (self w) = None ->
   (exists d, _password_encoded (self w) = Some d /\
              a2b_hex (INFO_PREFIX ++ d) <> Raise BinasciiError) ->
   a2b_hex (_commandkey (self w) key) <> Raise BinasciiError ->
   r = Ret true) /\
  same_identity w w1 /\
  attempts t = 1%nat /\ disconnects t = 1%nat /\ backoffs t = O /\
  _device (self w1) = None.
Proof.
  intros E Et.
  destruct (attempt_facts env key w) as (r' & w' & t' & E' & Et' & H).
  rewrite E in E'. injection E' as <- <-.
  rewrite Et in Et'. apply app_inv_head in Et'. subst t'.
  destruct H as (H1 & H2 & H3 & H4 & H5 & H6 & H7).
  repeat (split; [assumption |]).
  split.
  { pose proof (respects_attempt env same_identity (fun _ => True)
                  same_identity_refl same_identity_trans) as Hr.
    assert (Hs : respects same_identity (attempt env key)).
    { apply Hr;
        first [ exact (same_identity_refresh env)
              | intros; exact I
              | intros; repeat split ]. }
    specialize (Hs w). rewrite E in Hs. exact Hs. }
  destruct (attempt_shape env key w)
    as (r0 & w0 & body & tail & Ea & Et0 & Qb & Qt & _ & Hdev).
  rewrite E in Ea. injection Ea as <- <-.
  rewrite Et in Et0. apply app_inv_head in Et0. subst t.
  destruct (attempt_counts body tail (_commandkey (self w) key) Qb Qt)
    as (Ca & Cd & Cb).
  repeat split; assumption.
Qed.

Lemma sendcommand_run env key retry w :
  exists r w' t,
    _sendcommand env key retry w = (r, w') /\
    trace w' = (trace w ++ t)%list /\
    run env key w r w' t.
Proof.
  functional induction (_sendcommand env key retry w);
    match goal with
    | E : attempt env key ?w = (_, ?w1) |- _ =>
        destruct (attempt_shape env key w)
          as (r0 & w0 & body & tail & Ea & Et & _);
        rewrite E in Ea; injection Ea as <- <-
    end.
  1-3: eexists _, _, _; split; [reflexivity |]; split; [exact Et |];
       eapply run_last; eassumption.
  destruct IHp as (r' & w' & t2 & Es & Et2 & Hrun).
  match goal with
  | E : sleep _ w1 = _ |- _ =>
      unfold sleep, emit in E; injection E as _ <-
  end.
  exists r', w'. eexists. split; [exact Es |]. split.
  - rewrite Et2. simpl. rewrite Et, <- !app_assoc. reflexivity.
  - eapply run_retry; eassumption.
Qed.

Lemma allowed_same_identity w w' e :
  same_identity w w' -> allowed (self w') e -> allowed (self w) e.
Proof.
  intros (Hm & _ & Hp). destruct e as [| | | c o | |]; simpl; auto.
  destruct c; simpl; auto.
  - intros ->. exact Hm.
  - unfold _commandkey. rewrite Hp. auto.
Qed.

Lemma last_battery_app t1 t2 b :
  last_battery (t1 ++ t2) b = last_battery t2 (last_battery t1 b).
Proof.
  revert b. induction t1 as [| e t1 IH]; intros b; [reflexivity |].
  destruct e; simpl; apply IH.
Qed.

Lemma last_battery_none t b :
  tally is_GotBattery t = O -> last_battery t b = b.
Proof.
  revert b. induction t as [| e t IH]; intros b H; [reflexivity |].
  rewrite tally_cons in H. destruct e; simpl in *; try discriminate;
    apply IH; exact H.
Qed.

(** X7: every call into [bluepy] made along a send is one the class makes
    for this device: a connection to its own address, a disconnection, the
    installation of the delegate, the lookup of [SERVICE_UUID] and of
    [HANDLE], the write of [0100] to handle [0014] without response, the
    write with response of the status query or of the Press frame to
    [HANDLE], or a wait of three seconds.  No other frame is ever written. *)
Theorem send_makes_known_calls (env : environment) (key : string) (retry : Z)
        (w : world) :
  exists r w' t,
    _sendcommand env key retry w = (r, w') /\
    trace w' = (trace w ++ t)%list /\
    Forall (allowed (self w)) t.
Proof.
  destruct (sendcommand_run env key retry w) as (r & w' & t & E & Et & Hrun).
  exists r, w', t. split; [exact E |]. split; [exact Et |].
  clear E Et. induction Hrun as [w r w1 t Ea Et | w w1 t1 r w' t2 Ea Et _ IH].
  - apply (attempt_facts_at env key w r w1 t Ea Et).
  - destruct (attempt_facts_at env key w _ w1 t1 Ea Et)
      as (Hall & _ & _ & _ & _ & _ & _ & Hid & _).
    apply Forall_app. split; [exact Hall |].
    apply Forall_cons; [exact I |].
    apply Forall_impl with (2 := IH). intros e.
    apply (allowed_same_identity w (logged (Sleep DEFAULT_RETRY_TIMEOUT) w1)).
    exact Hid.
Qed.

(** X8: along a send the cached battery level changes only where the
    listener ran: afterwards it is the level of the last notification
    decoded during the send, and the level before the send if there was
    none. *)
Theorem battery_follows_listener (env : environment) (key : string)
        (retry : Z) (w : world) :
  exists r w' t,
    _sendcommand env key retry w = (r, w') /\
    trace w' = (trace w ++ t)%list /\
    _battery_percent (self w') = last_battery t (_battery_percent (self w)) /\
    (tally is_GotBattery t = O ->
     _battery_percent (self w') = _battery_percent (self w)).
Proof.
  destruct (sendcommand_run env key retry w) as (r & w' & t & E & Et & Hrun).
  exists r, w', t. split; [exact E |]. split; [exact Et |].
  assert (H : _battery_percent (self w')
              = last_battery t (_battery_percent (self w))).
  { clear E Et.
    induction Hrun as [w r w1 t Ea Et | w w1 t1 r w' t2 Ea Et _ IH].
    - apply (attempt_facts_at env key w r w1 t Ea Et).
    - destruct (attempt_facts_at env key w _ w1 t1 Ea Et) as (_ & Hb & _).
      rewrite last_battery_app. simpl. rewrite IH. simpl. rewrite Hb.
      reflexivity. }
  split; [exact H |].
  intros Hnone. rewrite H. apply last_battery_none. exact Hnone.
Qed.

Lemma commandkey_same_identity w w' key :
  same_identity w w' -> _commandkey (self w') key = _commandkey (self w) key.
Proof. intros (_ & _ & Hp). unfold _commandkey. rewrite Hp. reflexivity. Qed.

Lemma true_means_acknowledged_aux env key w w' t :
  run env key w (Ret true) w' t ->
  exists val, a2b_hex (_commandkey (self w) key) = Ret val /\
              In (acknowledged val) t.
Proof.
  intros Hrun. remember (@Ret bool true) as r eqn:Er.
  induction Hrun as [w r w1 t Ea Et | w w1 t1 r w' t2 Ea Et _ IH].
  - destruct (attempt_facts_at env key w r w1 t Ea Et) as (_ & _ & H & _).
    apply H. exact Er.
  - destruct (attempt_facts_at env key w _ w1 t1 Ea Et)
      as (_ & _ & _ & _ & _ & _ & _ & Hid & _).
    destruct (IH Er) as (val & Hval & Hin).
    exists val. split.
    + rewrite <- (commandkey_same_identity w
                    (logged (Sleep DEFAULT_RETRY_TIMEOUT) w1) key Hid).
      exact Hval.
    + apply in_or_app. right. right. exact Hin.
Qed.

(** X9: a send returns [True] only if the command frame could be turned
    into bytes and a write of these bytes to [HANDLE], with response, was
    acknowledged during the send. *)
Theorem true_means_acknowledged (env : environment) (key : string) (retry : Z)
        (w w' : world) :
  _sendcommand env key retry w = (Ret true, w') ->
  exists t val,
    trace w' = (trace w ++ t)%list /\
    a2b_hex (_commandkey (self w) key) = Ret val /\
    In (acknowledged val) t.
Proof.
  intros E.
  destruct (sendcommand_run env key retry w) as (r & w0 & t & E0 & Et & Hrun).
  rewrite E in E0. injection E0 as <- <-.
  destruct (true_means_acknowledged_aux env key w w' t Hrun)
    as (val & Hval & Hin).
  exists t, val. auto.
Qed.

Lemma true_means_acknowledged_witness :
  exists t val,
    trace (snd (_sendcommand clear_air ON_KEY 3 (start (idle "c0:ff:ee" 3 ""))))
    = (trace (start (idle "c0:ff:ee" 3 "")) ++ t)%list /\
    a2b_hex (_commandkey (self (start (idle "c0:ff:ee" 3 ""))) ON_KEY)
    = Ret val /\
    In (acknowledged val) t.
Proof.
  apply (true_means_acknowledged clear_air ON_KEY 3
           (start (idle "c0:ff:ee" 3 ""))).
  vm_compute. reflexivity.
Defined.

(** X10: on a device whose digest has an odd number of digits no send
    ever returns [True], under any transport, and no frame is ever written
    to [HANDLE]: the only write a send can make is that of [0100] to
    handle [0014]. *)
Theorem odd_digest_never_sends (env : environment) (key : string) (retry : Z)
        (w : world) (d : string) :
  _password_encoded (self w) = Some d ->
  Nat.odd (String.length d) = true ->
  exists r w' t,
    _sendcommand env key retry w = (r, w') /\
    trace w' = (trace w ++ t)%list /\
    r <> Ret true /\
    forall target val withResponse o,
      In (Bluepy (Characteristic_write target val withResponse) o) t ->
      target = "0014" /\ val = [x01; x00] /\ withResponse = false.
Proof.
  intros Hd Hodd.
  pose proof (a2b_hex_odd d Hodd) as Hraise.
  pose proof (commandkey_no_bytes (self w) key d Hd Hraise) as Hcmd.
  assert (Hinfo : a2b_hex (INFO_PREFIX ++ d) = Raise BinasciiError)
    by (rewrite info_bytes, Hraise; reflexivity).
  destruct (sendcommand_run env key retry w) as (r & w' & t & E & Et & Hrun).
  exists r, w', t. split; [exact E |]. split; [exact Et |]. split.
  - intros Hr. subst r.
    destruct (true_means_acknowledged_aux env key w w' t Hrun)
      as (val & Hval & _).
    congruence.
  - assert (Hall : Forall (allowed (self w)) t).
    { clear E Et.
      induction Hrun as [w0 r0 w1 t0 Ea Et0 | w0 w1 t1 r0 w0' t2 Ea Et0 _ IH].
      - apply (attempt_facts_at env key w0 r0 w1 t0 Ea Et0).
      - destruct (attempt_facts_at env key w0 _ w1 t1 Ea Et0)
          as (Hall & _ & _ & _ & _ & _ & _ & Hid & _).
        assert (Hd1 : _password_encoded
                        (self (logged (Sleep DEFAULT_RETRY_TIMEOUT) w1))
                      = Some d)
          by (simpl; destruct Hid as (_ & _ & ->); exact Hd).
        assert (Hcmd1 : a2b_hex (_commandkey
                           (self (logged (Sleep DEFAULT_RETRY_TIMEOUT) w1)) key)
                        = Raise BinasciiError)
          by (apply (commandkey_no_bytes _ key d Hd1 Hraise)).
        apply Forall_app. split; [exact Hall |].
        apply Forall_cons; [exact I |].
        apply Forall_impl with (2 := IH Hd1 Hcmd1). intros e.
        apply (allowed_same_identity w0
                 (logged (Sleep DEFAULT_RETRY_TIMEOUT) w1)). exact Hid. }
    intros target val withResponse o Hin.
    rewrite Forall_forall in Hall. specialize (Hall _ Hin).
    cbn [allowed allowed_call] in Hall.
    destruct Hall as [H | [(_ & _ & d' & Hd' & Hval) | (_ & _ & Hval)]].
    + exact H.
    + rewrite Hd in Hd'. injection Hd' as <-. congruence.
    + change (_commandkey (self w) PRESS_KEY)
        with (_commandkey (self w) key) in Hval. congruence.
Qed.

Lemma odd_digest_never_sends_witness :
  exists r w' t,
    _sendcommand clear_air ON_KEY 3 (start (idle "c0:ff:ee" 3 "6b9df6f"))
    = (r, w') /\
    trace w' = (trace (start (idle "c0:ff:ee" 3 "6b9df6f")) ++ t)%list /\
    r <> Ret true /\
    forall target val withResponse o,
      In (Bluepy (Characteristic_write target val withResponse) o) t ->
      target = "0014" /\ val = [x01; x00] /\ withResponse = false.
Proof.
  apply (odd_digest_never_sends clear_air ON_KEY 3
           (start (idle "c0:ff:ee" 3 "6b9df6f")) "6b9df6f").
  - reflexivity.
  - reflexivity.
Defined.



(** X12: while the clock stays within 3600 seconds of the last refresh, a
    send makes no call of the status refresher (no delegate is installed,
    nothing is waited for), writes at most one frame per attempt and leaves
    [_lastBattRefresh] as it was. *)
Theorem throttled_send_skips_status (env : environment) (key : string)
        (retry : Z) (w : world) :
  within_window env w ->
  exists r w' t,
    _sendcommand env key retry w = (r, w') /\
    trace w' = (trace w ++ t)%list /\
    tally is_status_call t = O /\
    (tally is_write t <= attempts t)%nat /\
    _lastBattRefresh (self w') = _lastBattRefresh (self w).
Proof.
  intros Hwin.
  destruct (sendcommand_run env key retry w) as (r & w' & t & E & Et & Hrun).
  exists r, w', t. split; [exact E |]. split; [exact Et |].
  clear E Et.
  induction Hrun as [w r w1 t Ea Et | w w1 t1 r w' t2 Ea Et _ IH].
  - destruct (attempt_facts_at env key w r w1 t Ea Et)
      as (_ & _ & _ & _ & _ & Hth & _ & _ & Ha & _).
    destruct (Hth (Hwin (reads w) (Nat.le_refl _))) as (Hs & Hw & Hl & _).
    rewrite Ha. auto.
  - destruct (attempt_facts_at env key w _ w1 t1 Ea Et)
      as (_ & _ & _ & _ & _ & Hth & _ & _ & Ha & _).
    destruct (Hth (Hwin (reads w) (Nat.le_refl _))) as (Hs & Hw & Hl & Hr).
    destruct IH as (Hs2 & Hw2 & Hl2).
    { intros k Hk. simpl in *. rewrite Hl. apply Hwin. lia. }
    unfold attempts in *.
    rewrite !tally_app, !tally_cons, Hs, Hs2, Ha. simpl in *.
    split; [reflexivity |]. split; [lia |]. congruence.
Qed.

Lemma throttled_send_skips_status_witness :
  exists r w' t,
    _sendcommand still_air ON_KEY 3 (start (idle "c0:ff:ee" 3 "")) = (r, w') /\
    trace w' = (trace (start (idle "c0:ff:ee" 3 "")) ++ t)%list /\
    tally is_status_call t = O /\
    (tally is_write t <= attempts t)%nat /\
    _lastBattRefresh (self w')
    = _lastBattRefresh (self (start (idle "c0:ff:ee" 3 ""))).
Proof.
  apply (throttled_send_skips_status still_air ON_KEY 3
           (start (idle "c0:ff:ee" 3 ""))).
  intros k Hk. reflexivity.
Defined.

(** X13: on a transport on which no call fails, every write is
    acknowledged and notifications have at least three bytes, a send from a
    disconnected device whose digest can be turned into bytes returns [True]
    after one attempt, whatever the retry count: one connection, the
    acknowledged write of [57 11], the digest, [00], one disconnection and
    no sleep between attempts; so do the three public operations. *)
Theorem send_succeeds_first_time (env : environment) (key : string)
        (retry : Z) (w : world) (d : string) (bs : list byte) :
  answering env ->
  _device (self w) = None ->
  _password_encoded (self w) = Some d ->
  a2b_hex d = Ret bs ->
  exists w' t,
    _sendcommand env key retry w = (Ret true, w') /\
    trace w' = (trace w ++ t)%list /\
    attempts t = 1%nat /\ tally is_connect t = 1%nat /\
    disconnects t = 1%nat /\ backoffs t = O /\
    In (acknowledged (x57 :: x11 :: bs ++ [x00])%list) t /\
    _device (self w') = None /\
    turn_on env w = (Ret true, w') /\
    turn_off env w = (Ret true, w') /\
    press env w = (Ret true, w').
Proof.
  intros Hans Hdev Hd Hbs.
  pose proof (commandkey_bytes (self w) key d bs Hd Hbs) as Hcmd.
  destruct (attempt_shape env key w)
    as (r & w' & body & tail & Ea & Et & _).
  destruct (attempt_facts_at env key w r w' _ Ea Et)
    as (_ & _ & Hack & _ & Hconn & _ & Hans' & _ & Ha & Hdis & Hb & Hnone).
  assert (Hr : r = Ret true).
  { apply Hans'; try assumption.
    - exists d. split; [exact Hd |]. rewrite info_bytes, Hbs. discriminate.
    - rewrite Hcmd. discriminate. }
  subst r.
  assert (Hsend : forall k n, _sendcommand env k n w = (Ret true, w')).
  { intros k n. rewrite sendcommand_unfold.
    change (attempt env k w) with (attempt env key w). rewrite Ea.
    reflexivity. }
  exists w'. eexists. split; [apply Hsend |]. split; [exact Et |].
  rewrite Hdev in Hconn.
  destruct (Hack eq_refl) as (val & Hval & Hin).
  rewrite Hcmd in Hval. injection Hval as <-.
  repeat split; try assumption;
    unfold turn_on, turn_off, press, bind, get_self; apply Hsend.
Qed.

Lemma send_succeeds_first_time_witness :
  exists w' t,
    _sendcommand clear_air OFF_KEY 0 (start (idle "c0:ff:ee" 0 "9be3e0a3"))
    = (Ret true, w') /\
    trace w' = (trace (start (idle "c0:ff:ee" 0 "9be3e0a3")) ++ t)%list /\
    attempts t = 1%nat /\ tally is_connect t = 1%nat /\
    disconnects t = 1%nat /\ backoffs t = O /\
    In (acknowledged ([x57; x11] ++ [x9b; xe3; xe0; xa3] ++ [x00])%list) t /\
    _device (self w') = None /\
    turn_on clear_air (start (idle "c0:ff:ee" 0 "9be3e0a3")) = (Ret true, w') /\
    turn_off clear_air (start (idle "c0:ff:ee" 0 "9be3e0a3")) = (Ret true, w') /\
    press clear_air (start (idle "c0:ff:ee" 0 "9be3e0a3")) = (Ret true, w').
Proof.
  apply (send_succeeds_first_time clear_air OFF_KEY 0
           (start (idle "c0:ff:ee" 0 "9be3e0a3")) "9be3e0a3"
           [x9b; xe3; xe0; xa3]).
  - split; [| split].
    + intros k. reflexivity.
    + intros k. reflexivity.
    + intros k cHandle data H. injection H as _ <-. simpl. lia.
  - reflexivity.
  - reflexivity.
  - reflexivity.
Defined.

(** X14: a send returns [False] only when the whole budget is spent: after
    exactly [max retry 0 + 1] attempts and [max retry 0] sleeps, whatever
    made the attempts fail. *)
Theorem false_means_budget_spent (env : environment) (key : string)
        (retry : Z) (w w' : world) :
  _sendcommand env key retry w = (Ret false, w') ->
  exists t,
    trace w' = (trace w ++ t)%list /\
    Z.of_nat (attempts t) = Z.max retry 0 + 1 /\
    Z.of_nat (backoffs t) = Z.max retry 0.
Proof.
  functional induction (_sendcommand env key retry w); intros E;
    try discriminate E;
    match goal with
    | Ea : attempt env key ?w = (_, ?w1) |- _ =>
        destruct (attempt_shape env key w)
          as (r0 & w0 & body & tail & Ea' & Et & Qb & Qt & _);
        rewrite Ea in Ea'; injection Ea' as <- <-;
        destruct (attempt_counts body tail (_commandkey (self w) key) Qb Qt)
          as (Ca & _ & Cb)
    end.
  - injection E as <-. eexists. split; [exact Et |].
    rewrite Ca, Cb.
    match goal with H : (retry <? 1) = true |- _ => apply Z.ltb_lt in H end.
    lia.
  - destruct (IHp E) as (t2 & Et2 & Ha2 & Hb2).
    match goal with
    | Es : sleep _ w1 = _ |- _ =>
        unfold sleep, emit in Es; injection Es as _ <-
    end.
    simpl in Et2. eexists. split.
    + rewrite Et2, Et, <- !app_assoc. simpl. rewrite <- app_assoc.
      reflexivity.
    + match goal with H : (retry <? 1) = false |- _ => apply Z.ltb_ge in H end.
      unfold attempts, backoffs in *.
      repeat (rewrite tally_cons || rewrite tally_app).
      rewrite !(tally_quiet is_Sending), !(tally_quiet is_backoff)
        by (assumption || apply quiet_not_Sending || apply quiet_not_backoff).
      simpl.
      change (Qeq_bool DEFAULT_RETRY_TIMEOUT DEFAULT_RETRY_TIMEOUT) with true.
      simpl in *. lia.
Qed.

Lemma false_means_budget_spent_witness :
  exists t,
    trace (snd (_sendcommand mute_air ON_KEY 2 (start (idle "c0:ff:ee" 2 ""))))
    = (trace (start (idle "c0:ff:ee" 2 "")) ++ t)%list /\
    Z.of_nat (attempts t) = Z.max 2 0 + 1 /\
    Z.of_nat (backoffs t) = Z.max 2 0.
Proof.
  apply (false_means_budget_spent mute_air ON_KEY 2
           (start (idle "c0:ff:ee" 2 ""))).
  vm_compute. reflexivity.
Defined.

Lemma attempt_connections env key w :
  exists r w' t,
    attempt env key w = (r, w') /\
    trace w' = (trace w ++ t)%list /\
    tally is_closed t
    = (tally is_opened t
       + match _device (self w) with Some _ => 1 | None => O end)%nat.
Proof.
  destruct w as [[mac dev rc pw last batt] k r t].
  attempt_paths.
  all: eexists _, _, _; (split; [reflexivity |]); simpl.
  all: split; reflexivity.
Qed.

(** X15: no connection is left open: along a send from a disconnected
    device there is one connection attempt per attempt, and as many
    disconnections of a peripheral as connections that were opened; from a
    connected device there is one disconnection more. *)
Theorem connections_are_closed (env : environment) (key : string) (retry : Z)
        (w : world) :
  exists r w' t,
    _sendcommand env key retry w = (r, w') /\
    trace w' = (trace w ++ t)%list /\
    _device (self w') = None /\
    tally is_closed t
    = (tally is_opened t
       + match _device (self w) with Some _ => 1 | None => O end)%nat /\
    (tally is_connect t
     + match _device (self w) with Some _ => 1 | None => O end)%nat
    = attempts t.
Proof.
  destruct (sendcommand_run env key retry w) as (r & w' & t & E & Et & Hrun).
  exists r, w', t. split; [exact E |]. split; [exact Et |].
  clear E Et.
  induction Hrun as [w r w1 t Ea Et | w w1 t1 r w' t2 Ea Et _ IH].
  - destruct (attempt_facts_at env key w r w1 t Ea Et)
      as (_ & _ & _ & _ & Hc & _ & _ & _ & Ha & _ & _ & Hn).
    destruct (attempt_connections env key w) as (r' & w0 & t' & E' & Et' & Hcl).
    rewrite Ea in E'. injection E' as <- <-.
    rewrite Et in Et'. apply app_inv_head in Et'. subst t'.
    split; [exact Hn |]. split; [exact Hcl |].
    rewrite Hc, Ha. destruct (_device (self w)); reflexivity.
  - destruct (attempt_facts_at env key w _ w1 t1 Ea Et)
      as (_ & _ & _ & _ & Hc & _ & _ & _ & Ha & _ & _ & Hn).
    destruct (attempt_connections env key w) as (r' & w0 & t' & E' & Et' & Hcl).
    rewrite Ea in E'. injection E' as _ <-.
    rewrite Et in Et'. apply app_inv_head in Et'. subst t'.
    destruct IH as (Hn2 & Hcl2 & Hc2). simpl in Hcl2, Hc2.
    rewrite Hn in Hcl2, Hc2.
    split; [exact Hn2 |].
    unfold attempts in *.
    rewrite !tally_app, !tally_cons, Hcl, Hcl2, Hc, Ha. simpl.
    rewrite <- Hc2. destruct (_device (self w)); simpl; lia.
Qed.

(** ** Construction and the listener *)

Lemma encode_ascii_refused (s : string) :
  string_forallb is_ascii s = false ->
  encode_ascii s = Raise UnicodeEncodeError.
Proof.
  induction s as [| c s IH]; simpl; intros H; [discriminate |].
  destruct (is_ascii c); [| reflexivity].
  simpl in H. rewrite (IH H). reflexivity.
Qed.

(** X16: the constructor fails exactly on a password with a character
    above 127, and then with [UnicodeEncodeError]; otherwise it returns a
    disconnected device that was never refreshed, has no battery level and
    carries the address and retry count it was given; its digest is empty
    exactly when there is no password or an empty one, and has at most
    eight digits. *)
Theorem init_outcomes (mac : string) (retry_count : Z) (password : option string) :
  (forall pw, password = Some pw -> string_forallb is_ascii pw = false ->
     __init__ mac retry_count password = Raise UnicodeEncodeError) /\
  ((forall pw, password = Some pw -> string_forallb is_ascii pw = true) ->
   exists digest,
     __init__ mac retry_count password = Ret (idle mac retry_count digest) /\
     (digest = "" <-> password = None \/ password = Some "") /\
     (String.length digest <= 8)%nat) /\
  (forall e, __init__ mac retry_count password = Raise e ->
     e = UnicodeEncodeError /\
     exists pw, password = Some pw /\ string_forallb is_ascii pw = false).
Proof.
  assert (Hbad : forall pw, string_forallb is_ascii pw = false ->
             __init__ mac retry_count (Some pw) = Raise UnicodeEncodeError).
  { intros pw H. unfold __init__, _passwordcrc.
    destruct (String.eqb_spec pw "") as [-> | _]; [discriminate H |].
    rewrite (encode_ascii_refused pw H). reflexivity. }
  assert (Hgood : forall pw, string_forallb is_ascii pw = true ->
             exists digest,
               __init__ mac retry_count (Some pw)
               = Ret (idle mac retry_count digest) /\
               (digest = "" <-> pw = "") /\
               (String.length digest <= 8)%nat).
  { intros pw H. unfold __init__, _passwordcrc.
    destruct (String.eqb_spec pw "") as [-> | Hne].
    - exists "". repeat split; auto. simpl. lia.
    - destruct (encode_ascii_total pw H) as (bs & -> & _).
      pose proof (DigestFacts.crc32_word32 bs) as Hw.
      rewrite DigestFacts.mask_word32 by assumption.
      destruct (DigestFacts.format_x_word32 _ Hw) as (Hlen & _).
      eexists. split; [reflexivity |]. split; [| lia].
      split; [| contradiction].
      intros E. rewrite E in Hlen. simpl in Hlen. lia. }
  split; [| split].
  - intros pw -> H. apply Hbad. exact H.
  - intros H. destruct password as [pw |].
    + destruct (Hgood pw (H pw eq_refl)) as (digest & E & Hempty & Hlen).
      exists digest. split; [exact E |]. split; [| exact Hlen].
      rewrite Hempty. split.
      * intros ->. right. reflexivity.
      * intros [Hn | Hs]; [discriminate | injection Hs as ->; reflexivity].
    + exists "". repeat split; auto. simpl. lia.
  - intros e E. destruct password as [pw |]; [| discriminate E].
    destruct (string_forallb is_ascii pw) eqn:H.
    + destruct (Hgood pw H) as (digest & E' & _). congruence.
    + rewrite (Hbad pw H) in E. injection E as <-. eauto.
Qed.

Lemma init_outcomes_witness :
  __init__ "c0:ff:ee" 3 (Some (String (ascii_of_N 233) "t"))
  = Raise UnicodeEncodeError /\
  (exists digest,
     __init__ "c0:ff:ee" 3 (Some "1234") = Ret (idle "c0:ff:ee" 3 digest) /\
     (digest = "" <-> Some "1234" = None \/ Some "1234" = Some "") /\
     (String.length digest <= 8)%nat).
Proof.
  split.
  - apply (proj1 (init_outcomes "c0:ff:ee" 3
                    (Some (String (ascii_of_N 233) "t")))
             (String (ascii_of_N 233) "t")); reflexivity.
  - apply (proj1 (proj2 (init_outcomes "c0:ff:ee" 3 (Some "1234")))).
    intros pw H. injection H as <-. reflexivity.
Defined.

(** X17: the listener reads the bytes at index 1 and 2 and nothing else:
    the handle, the byte at index 0 and the bytes after index 2 do not
    matter.  It stores the byte at index 1 as it is, between 0 and 255
    (nothing holds it to 100), and the version it logs is between 0 and
    25.5. *)
Theorem listener_reads_two_bytes (cHandle cHandle' : Z) (b0 b0' b1 b2 : byte)
        (rest rest' : list byte) (w : world) :
  handleNotification cHandle (b0 :: b1 :: b2 :: rest) w
  = handleNotification cHandle' (b0' :: b1 :: b2 :: rest') w /\
  exists batt fw,
    handleNotification cHandle (b0 :: b1 :: b2 :: rest) w
    = (Ret tt, with_battery batt fw w) /\
    batt = Z.of_N (Byte.to_N b1) /\ 0 <= batt <= 255 /\
    (fw == inject_Z (Z.of_N (Byte.to_N b2)) / 10)%Q /\
    (0 <= fw)%Q /\ (fw <= 255 # 10)%Q.
Proof.
  split; [reflexivity |].
  exists (Z.of_N (Byte.to_N b1)),
         (inject_Z (Z.of_N (Byte.to_N b2)) / inject_Z 10)%Q.
  pose proof (Byte.to_N_bounded b1). pose proof (Byte.to_N_bounded b2).
  split; [reflexivity |]. split; [reflexivity |]. split; [lia |].
  split; [reflexivity |].
  assert (H0' : (0 <= inject_Z (Z.of_N (Byte.to_N b2)))%Q)
    by (change 0%Q with (inject_Z 0); rewrite <- Zle_Qle; lia).
  assert (H255 : (inject_Z (Z.of_N (Byte.to_N b2)) <= inject_Z 255)%Q)
    by (rewrite <- Zle_Qle; lia).
  split.
  - apply Qle_shift_div_l; [reflexivity |]. rewrite Qmult_0_l. exact H0'.
  - apply Qle_shift_div_r; [reflexivity |].
    setoid_replace ((255 # 10) * inject_Z 10)%Q with (inject_Z 255)
      by reflexivity.
    exact H255.
Qed.

(** ** The order of a status refresh *)

(** X18: a refresh that is not throttled and returns normally has done, in
    this order: installed the delegate, written [0100] to handle [0014]
    without response, looked up service and characteristic, written the
    status query with response, waited three seconds, during which the
    listener ran if a notification arrived, and slept one second, whether
    the wait was answered or not. *)
Theorem refresh_protocol (env : environment) (w w' : world) (p : Peripheral)
        (d : string) :
  throttled env w = false ->
  _device (self w) = Some p ->
  _password_encoded (self w) = Some d ->
  _getBatteryPercent_FWVersion env w = (Ret tt, w') ->
  exists query listened answered,
    a2b_hex (INFO_PREFIX ++ d) = Ret query /\
    trace w' =
      (trace w ++
       [Bluepy setDelegate (Ret (acks env (calls w)));
        Bluepy (Characteristic_write "0014" [x01; x00] false)
          (Ret (acks env (1 + calls w)));
        Bluepy (getServiceByUUID SERVICE_UUID) (Ret (acks env (2 + calls w)));
        Bluepy (getCharacteristics HANDLE) (Ret (acks env (3 + calls w)));
        Bluepy (Characteristic_write HANDLE query true)
          (Ret (acks env (4 + calls w)))]
       ++ listened ++ [wait_returned answered; Sleep 1])%list /\
    calls w' = (6 + calls w)%nat /\
    (answered = true ->
     exists cHandle data batt fw,
       notification env (5 + calls w) = Some (cHandle, data) /\
       listened = [GotBattery batt fw] /\
       _battery_percent (self w') = Some batt) /\
    (answered = false ->
     notification env (5 + calls w) = None /\ listened = [] /\
     _battery_percent (self w') = _battery_percent (self w)).
Proof.
  unfold throttled. destruct w as [[mac dev rc pw last batt] k r t].
  simpl. intros Hq -> -> E. revert E.
  unfold_methods.
  change (a2b_hex "0100") with (@Ret (list byte) [x01; x00]).
  simpl. rewrite Hq.
  repeat (simpl; path_step).
  all: simpl; rewrite <- ?app_assoc; simpl.
  all: intros E; try discriminate E; injection E as <-.
  - exists x, [GotBattery x0 (inject_Z x1 / inject_Z 10)], true.
    split; [reflexivity |]. split; [reflexivity |]. split; [reflexivity |].
    split; [| discriminate].
    intros _. eexists _, _, _, _. split; [reflexivity |].
    split; reflexivity.
  - exists x, [], false.
    split; [reflexivity |]. split; [reflexivity |]. split; [reflexivity |].
    split; [discriminate |]. intros _. repeat split.
Qed.

Lemma refresh_protocol_witness :
  exists query listened answered,
    a2b_hex (INFO_PREFIX ++ "9be3e0a3") = Ret query /\
    trace (snd (_getBatteryPercent_FWVersion clear_air
                  (start (connected (idle "c0:ff:ee" 3 "9be3e0a3"))))) =
      (trace (start (connected (idle "c0:ff:ee" 3 "9be3e0a3"))) ++
       [Bluepy setDelegate (Ret true);
        Bluepy (Characteristic_write "0014" [x01; x00] false) (Ret true);
        Bluepy (getServiceByUUID SERVICE_UUID) (Ret true);
        Bluepy (getCharacteristics HANDLE) (Ret true);
        Bluepy (Characteristic_write HANDLE query true) (Ret true)]
       ++ listened ++ [wait_returned answered; Sleep 1])%list /\
    answered = true /\ listened = [GotBattery 75 (inject_Z 30 / inject_Z 10)].
Proof.
  destruct (refresh_protocol clear_air
              (start (connected (idle "c0:ff:ee" 3 "9be3e0a3")))
              (snd (_getBatteryPercent_FWVersion clear_air
                      (start (connected (idle "c0:ff:ee" 3 "9be3e0a3")))))
              {| deviceAddr := "c0:ff:ee"; delegate := DefaultDelegate |}
              "9be3e0a3")
    as (query & listened & answered & Hq & Ht & _ & Hyes & Hno).
  - reflexivity.
  - reflexivity.
  - reflexivity.
  - vm_compute. reflexivity.
  - exists query, listened, answered. split; [exact Hq |].
    split; [exact Ht |].
    destruct answered.
    + split; [reflexivity |].
      destruct (Hyes eq_refl) as (h & data & batt & fw & Hn & Hl & Hb).
      vm_compute in Hq. injection Hq as <-.
      rewrite Hl in Ht |- *. vm_compute in Ht.
      injection Ht as <- <-. reflexivity.
    + exfalso. destruct (Hno eq_refl) as (Hn & _). discriminate Hn.
Defined.
